(** * Insight Miner: the analysis pipeline of [nlp_pipeline.py]

    A shallow embedding of [run_analysis] and of
    [_heuristic_contextual_linker], together with the parts of the Python
    runtime they rely on ([str] methods, [re.findall], [collections.Counter],
    [pandas.DataFrame.drop_duplicates]).

    Conventions of the embedding.
    - A Python [str] is a [string]; a character is a code point below 256
      (Latin-1), which covers every literal of the source.
    - A call that may raise returns a [result]; [try ... except Exception]
      is [try_except].
    - The two models are explicit arguments: [nlp] is [None] when the spaCy
      model could not be loaded, and the classifier is its [predict]. *)

From Stdlib Require Import Ascii String List Arith Lia Sorted.
From stdpp Require Import base decidable option list gmap strings sorting.

Set Warnings "-clear-no-such-hyp".

Open Scope string_scope.
Open Scope list_scope.
Open Scope nat_scope.

(** ** Python [str] *)

Module PyStr.

Definition code (c : ascii) : nat := nat_of_ascii c.

(** [len(s)] *)
Definition len (s : string) : nat := String.length s.

(** [str.isspace] on one character, as used by [strip], [split] and the
    regular-expression class [\s]: TAB..CR, FS..US, SPACE, NEL, NBSP. *)
Definition isspace (c : ascii) : bool :=
  let n := code c in
  (((9 <=? n) && (n <=? 13)) || ((28 <=? n) && (n <=? 32))
   || (n =? 133) || (n =? 160))%nat.

(** The class [\d]: the decimal digits. *)
Definition isdigit (c : ascii) : bool :=
  let n := code c in ((48 <=? n) && (n <=? 57))%nat.

(** [str.lower] on one character: A-Z, and the Latin-1 capitals
    U+00C0..U+00DE except the multiplication sign U+00D7. *)
Definition lower_char (c : ascii) : ascii :=
  let n := code c in
  if (((65 <=? n) && (n <=? 90))
      || ((192 <=? n) && (n <=? 222) && negb (n =? 215)))%nat
  then ascii_of_nat (n + 32) else c.

Fixpoint map_chars (f : ascii -> ascii) (s : string) : string :=
  match s with
  | EmptyString => EmptyString
  | String c s' => String (f c) (map_chars f s')
  end.

(** [s.lower()] *)
Definition lower (s : string) : string := map_chars lower_char s.

(** [s.startswith(p)] *)
Fixpoint startswith (p s : string) : bool :=
  match p, s with
  | EmptyString, _ => true
  | String a p', String b s' => Ascii.eqb a b && startswith p' s'
  | String _ _, EmptyString => false
  end.

(** [sub in s] *)
Fixpoint contains (sub s : string) : bool :=
  startswith sub s ||
  match s with
  | EmptyString => false
  | String _ s' => contains sub s'
  end.

(** [s[:n]] for [n >= 0] *)
Fixpoint slice_to (n : nat) (s : string) : string :=
  match n, s with
  | S n', String c s' => String c (slice_to n' s')
  | _, _ => EmptyString
  end.

(** [s.lstrip()], [s.rstrip()], [s.strip()] *)
Fixpoint lstrip (s : string) : string :=
  match s with
  | String c s' => if isspace c then lstrip s' else s
  | EmptyString => EmptyString
  end.

Fixpoint rstrip (s : string) : string :=
  match s with
  | String c s' =>
      match rstrip s' with
      | EmptyString => if isspace c then EmptyString else String c EmptyString
      | r => String c r
      end
  | EmptyString => EmptyString
  end.

Definition strip (s : string) : string := rstrip (lstrip s).

(** [s.split()]: the maximal runs of non-whitespace characters.
    [cur] is the token being read, in reverse. *)
Definition flush (cur : list ascii) : list string :=
  match cur with
  | [] => []
  | _ => [string_of_list_ascii (rev cur)]
  end.

Fixpoint split_from (cur : list ascii) (s : string) : list string :=
  match s with
  | EmptyString => flush cur
  | String c s' =>
      if isspace c then flush cur ++ split_from [] s'
      else split_from (c :: cur) s'
  end.

Definition split (s : string) : list string := split_from [] s.

(** [sep.join(l)] *)
Fixpoint join (sep : string) (l : list string) : string :=
  match l with
  | [] => ""
  | [x] => x
  | x :: l' => x +:+ sep +:+ join sep l'
  end.

(** [s.replace("\n", " ")] *)
Definition replace_newline (s : string) : string :=
  map_chars (fun c => if (code c =? 10)%nat then " "%char else c) s.

(** [s.endswith(p)] *)
Fixpoint endswith (p s : string) : bool :=
  String.eqb p s ||
  match s with
  | EmptyString => false
  | String _ s' => endswith p s'
  end.

End PyStr.

(** ** Python [re]: the fragment the metric patterns are written in *)

Module Re.

(** One item of a character class. *)
Inductive citem :=
| Char (c : ascii)    (* the character itself *)
| Digit               (* \d *)
| Space.              (* \s *)

Inductive regex :=
| Lit (s : string)              (* a run of literal characters *)
| Set_ (cls : list citem)       (* one character of [...], \d or \s *)
| Plus (cls : list citem)       (* greedy cls+ *)
| Star (cls : list citem)       (* greedy cls* *)
| Seq (r1 r2 : regex)           (* r1 r2 *)
| Alt (r1 r2 : regex)           (* r1|r2, the left one first *)
| Opt (r : regex).              (* greedy (?:r)? *)

Definition item_matches (c : ascii) (i : citem) : bool :=
  match i with
  | Char d => Ascii.eqb c d
  | Digit => PyStr.isdigit c
  | Space => PyStr.isspace c
  end.

Definition in_class (cls : list citem) (c : ascii) : bool :=
  existsb (item_matches c) cls.

(** Literal characters compare up to case under [re.IGNORECASE]. *)
Definition char_eq (ignorecase : bool) (a b : ascii) : bool :=
  if ignorecase then Ascii.eqb (PyStr.lower_char a) (PyStr.lower_char b)
  else Ascii.eqb a b.

Section Matcher.
Variable ignorecase : bool.

(** The backtracking matcher in continuation-passing style: [k] is what
    remains to be matched after the current node, and the result is the
    text left over after the whole match.  Alternatives are tried in
    the order of the [re] module, the first success wins. *)

Fixpoint lit (p s : string) (k : string -> option string) : option string :=
  match p, s with
  | EmptyString, _ => k s
  | String a p', String b s' =>
      if char_eq ignorecase a b then lit p' s' k else None
  | String _ _, EmptyString => None
  end.

Fixpoint star (cls : list citem) (s : string) (k : string -> option string)
  : option string :=
  match s with
  | String c s' =>
      if in_class cls c then
        match star cls s' k with
        | Some rest => Some rest
        | None => k s
        end
      else k s
  | EmptyString => k s
  end.

Fixpoint run (r : regex) (s : string) (k : string -> option string)
  : option string :=
  match r with
  | Lit p => lit p s k
  | Set_ cls =>
      match s with
      | String c s' => if in_class cls c then k s' else None
      | EmptyString => None
      end
  | Plus cls =>
      match s with
      | String c s' => if in_class cls c then star cls s' k else None
      | EmptyString => None
      end
  | Star cls => star cls s k
  | Seq r1 r2 => run r1 s (fun s' => run r2 s' k)
  | Alt r1 r2 =>
      match run r1 s k with
      | Some rest => Some rest
      | None => run r2 s k
      end
  | Opt r1 =>
      match run r1 s k with
      | Some rest => Some rest
      | None => k s
      end
  end.

(** A match anchored at the start of [s]: the matched text. *)
Definition match_at (r : regex) (s : string) : option string :=
  match run r s Some with
  | Some rest => Some (PyStr.slice_to (PyStr.len s - PyStr.len rest) s)
  | None => None
  end.

(** The scan of [findall]: leftmost match first, then on from where it
    ended.  [skip] counts the characters of the last match that still
    lie ahead. *)
Fixpoint scan (r : regex) (skip : nat) (s : string) : list string :=
  match s with
  | EmptyString => []
  | String _ s' =>
      match skip with
      | S n => scan r n s'
      | O =>
          match match_at r s with
          | Some m => m :: scan r (PyStr.len m - 1) s'
          | None => scan r 0 s'
          end
      end
  end.

End Matcher.

(** [re.findall(pattern, s, flags)] for a pattern without capture groups
    that matches no empty text: all whole matches, left to right, none
    overlapping another. *)
Definition findall (r : regex) (s : string) (ignorecase : bool) : list string :=
  scan ignorecase r 0 s.

End Re.

(** ** Exceptions *)

Inductive exn :=
| AttributeError (msg : string)
| RuntimeError (msg : string)
| OSError (msg : string)
| FileNotFoundError (msg : string)      (* a subclass of OSError *)
| Exception (msg : string).

(** [isinstance(e, OSError)] *)
Definition is_OSError (e : exn) : bool :=
  match e with
  | OSError _ | FileNotFoundError _ => true
  | _ => false
  end.

Inductive result (A : Type) :=
| Ok (a : A)
| Raise (e : exn).
Arguments Ok {A} a.
Arguments Raise {A} e.

Definition bind {A B} (m : result A) (f : A -> result B) : result B :=
  match m with
  | Ok a => f a
  | Raise e => Raise e
  end.

(** [try: body / except Exception as e: handler(e)] *)
Definition try_except {A} (body : result A) (handler : exn -> A) : A :=
  match body with
  | Ok a => a
  | Raise e => handler e
  end.

(** ** What the spaCy model returns *)

(** An entity span: [ent.text] and [ent.label_]. *)
Record Ent := { ent_text : string; label_ : string }.

(** A sentence span: [sent.text] and [sent.ents]. *)
Record Sent := { sent_text : string; sent_ents : list Ent }.

(** A parsed document: [doc.sents] and [doc.ents]. *)
Record Doc := { sents : list Sent; ents : list Ent }.

(** The global [nlp]: [None] when no spaCy model could be loaded. *)
Definition Nlp := option (string -> result Doc).

(** The global [classifier], as [fun x => classifier.predict([x])[0]]. *)
Definition Classifier := string -> result string.

(** ** [pandas.DataFrame] with the columns Company, Metric, Value *)

Record Fact := { Company : string; Metric : string; Value : string }.

#[global] Instance Fact_eq_dec : EqDecision Fact.
Proof. solve_decision. Defined.

Module Pandas.
Section DropDuplicates.
Context {A : Type} `{EqDecision A}.

(** [drop_duplicates()] keeps a row unless an equal row came before it
    ([keep='first']); [seen] holds the rows already passed. *)
Fixpoint drop_from (seen : list A) (rows : list A) : list A :=
  match rows with
  | [] => []
  | r :: rows' =>
      if decide (r ∈ seen) then drop_from seen rows'
      else r :: drop_from (r :: seen) rows'
  end.

Definition drop_duplicates (rows : list A) : list A := drop_from [] rows.

(** The position of the first occurrence of [x] in [l], as [l.index(x)]
    gives it; the length of [l] when there is none. *)
Fixpoint index_of (x : A) (l : list A) : nat :=
  match l with
  | [] => 0
  | y :: l' => if decide (x = y) then 0 else S (index_of x l')
  end.
End DropDuplicates.
End Pandas.

(** ** [collections.Counter] *)

Module Counter.

(** [c[x] += 1]; a new key goes last (dicts keep insertion order). *)
Fixpoint incr (x : string) (c : list (string * nat)) : list (string * nat) :=
  match c with
  | [] => [(x, 1)]
  | (y, n) :: c' =>
      if decide (x = y) then (y, S n) :: c' else (y, n) :: incr x c'
  end.

(** [Counter(l)] *)
Definition of_list (l : list string) : list (string * nat) :=
  fold_left (fun c x => incr x c) l [].

(** [sorted(items, key=count, reverse=True)]: stable, so equal counts stay
    in insertion order. *)
Fixpoint insert_desc (x : string * nat) (l : list (string * nat))
  : list (string * nat) :=
  match l with
  | [] => [x]
  | y :: l' =>
      if (snd y <=? snd x)%nat then x :: y :: l' else y :: insert_desc x l'
  end.

Definition sort_desc (l : list (string * nat)) : list (string * nat) :=
  foldr insert_desc [] l.

(** [c.most_common(n)], which is [heapq.nlargest(n, items, key=count)],
    that is the first [n] of the stable descending sort. *)
Definition most_common (n : nat) (c : list (string * nat))
  : list (string * nat) :=
  take n (sort_desc c).

(** [l.count(x)]: the exact-string frequency of [x] in [l]. *)
Definition frequency (x : string) (l : list string) : nat :=
  length (filter (λ y, y = x) l).

(** The order [sort_desc] establishes, given the order [B] of its input. *)
Definition sorted_by (B : string * nat → string * nat → Prop)
    (p q : string * nat) : Prop :=
  q.2 < p.2 ∨ (p.2 = q.2 ∧ B p q).

(** The keys of [Counter(l)] as [sorted] leaves them, before [most_common]
    cuts the list. *)
Definition ranking (l : list string) : list string :=
  (sort_desc (of_list l)).*1.

(** [x] ranks before [y] among [mentions]: it is more frequent, or as
    frequent and first seen earlier. *)
Definition ranks_before (mentions : list string) (x y : string) : Prop :=
  frequency y mentions < frequency x mentions
  ∨ (frequency x mentions = frequency y mentions
     ∧ Pandas.index_of x mentions < Pandas.index_of y mentions).

End Counter.

(** ** The financial metrics dictionary *)

Record MetricSpec := { keywords : list string; pattern : Re.regex }.

(** [\$[\d\.,]+\s*(?:billion|million|trillion)?] *)
Definition amount_pattern : Re.regex :=
  Re.Seq (Re.Lit "$")
    (Re.Seq (Re.Plus [Re.Digit; Re.Char "."; Re.Char ","])
       (Re.Seq (Re.Star [Re.Space])
          (Re.Opt (Re.Alt (Re.Lit "billion")
                     (Re.Alt (Re.Lit "million") (Re.Lit "trillion")))))).

(** [\$[ \d\.,]+] *)
Definition eps_pattern : Re.regex :=
  Re.Seq (Re.Lit "$")
    (Re.Plus [Re.Char " "; Re.Digit; Re.Char "."; Re.Char ","]).

Definition FINANCIAL_METRICS : list (string * MetricSpec) :=
  [ ("Revenue",
      {| keywords := ["revenue"; "sales"]; pattern := amount_pattern |});
    ("Net Income",
      {| keywords := ["net income"]; pattern := amount_pattern |});
    ("Operating Income",
      {| keywords := ["operating income"]; pattern := amount_pattern |});
    ("Earnings Per Share",
      {| keywords := ["earnings per share"; "diluted earnings per share"];
         pattern := eps_pattern |}) ].

(** ** [_heuristic_contextual_linker] *)

Definition PREFERRED_ORGS : list string :=
  ["Microsoft"; "Apple"; "Google"; "Amazon"].

(** [[ent.text for ent in sent.ents if ent.label_ == 'ORG']] *)
Definition sent_orgs (sent : Sent) : list string :=
  map ent_text (filter (fun e => label_ e = "ORG") (sent_ents sent)).

(** The sentence mentions no organization: [if sent_orgs:] fails. *)
Definition no_org (sent : Sent) : Prop := sent_orgs sent = [].

(** [any(k in org for k in ['Microsoft', 'Apple', 'Google', 'Amazon'])] *)
Definition preferred (org : string) : bool :=
  existsb (fun k => PyStr.contains k org) PREFERRED_ORGS.

(** [[org for org in sent_orgs if any(k in org for k in [...])]] *)
Definition known_orgs (orgs : list string) : list string :=
  filter (fun org => preferred org = true) orgs.

(** The update of [current_org] by one sentence. *)
Definition next_org (current_org : option string) (sent : Sent) : option string :=
  match sent_orgs sent with
  | [] => current_org
  | first :: _ =>
      match known_orgs (sent_orgs sent) with
      | known :: _ => Some known
      | [] => Some first
      end
  end.

(** The truth value of [current_org]: [None] and the empty string are
    false, so [truthy] is the organization that passes [if not current_org]. *)
Definition truthy (current_org : option string) : option string :=
  match current_org with
  | Some org => if (PyStr.len org =? 0)%nat then None else Some org
  | None => None
  end.

(** [any(keyword in sent.text.lower() for keyword in details['keywords'])] *)
Definition keyword_hit (details : MetricSpec) (sent : Sent) : bool :=
  existsb (fun keyword => PyStr.contains keyword (PyStr.lower (sent_text sent)))
    (keywords details).

(** The inner loop over [re.findall(...)] for one metric. *)
Definition metric_facts (org : string) (metric_name : string)
    (details : MetricSpec) (sent : Sent) : list Fact :=
  if keyword_hit details sent then
    map (fun value =>
           {| Company := org; Metric := metric_name;
              Value := PyStr.strip value |})
      (filter (fun value => 2 < PyStr.len value)
         (Re.findall (pattern details) (sent_text sent) true))
  else [].

(** The loop over [FINANCIAL_METRICS.items()] for one sentence. *)
Definition sentence_facts (org : string) (sent : Sent) : list Fact :=
  flat_map (fun '(metric_name, details) => metric_facts org metric_name details sent)
    FINANCIAL_METRICS.

(** The loop over [doc.sents]: the facts appended from [sentences] on, with
    [current_org] as left by the sentences before. *)
Fixpoint link_loop (current_org : option string) (sentences : list Sent)
  : list Fact :=
  match sentences with
  | [] => []
  | sent :: rest =>
      let current_org := next_org current_org sent in
      match truthy current_org with
      | None => link_loop current_org rest                (* continue *)
      | Some org => sentence_facts org sent ++ link_loop current_org rest
      end
  end.

(** [current_org] after the loop. *)
Definition final_org (current_org : option string) (sentences : list Sent)
  : option string :=
  fold_left next_org sentences current_org.

(** The candidate facts, before [drop_duplicates]. *)
Definition candidate_facts (doc : Doc) : list Fact :=
  link_loop None (sents doc).

(** [doc] is [None] when [nlp] is: [doc.sents] then raises. *)
Definition _heuristic_contextual_linker (doc : option Doc) : result (list Fact) :=
  match doc with
  | None => Raise (AttributeError "'NoneType' object has no attribute 'sents'")
  | Some d =>
      let facts := candidate_facts d in
      match facts with
      | [] => Ok []
      | _ => Ok (Pandas.drop_duplicates facts)
      end
  end.

(** ** [run_analysis] *)

(** The returned dict: the key [raw_text] exists on the skipped path only. *)
Record Report := {
  summary : string;
  entities : gmap string (list string);
  article_type : string;
  financial_facts : list Fact;
  raw_text : option string
}.

Definition MAX_CHARS : nat := 40 * 1000.     (* 40000 *)

(** The guard [not text or text.startswith("Error:") or len(text) < 150]. *)
Definition skipped (text : option string) : bool :=
  match text with
  | None => true
  | Some t =>
      (PyStr.len t =? 0)%nat || PyStr.startswith "Error:" t
      || (PyStr.len t <? 150)%nat
  end.

(** [text[:500] + "..." if text else "N/A"] *)
Definition raw_excerpt (text : option string) : string :=
  match text with
  | None => "N/A"
  | Some t =>
      if (PyStr.len t =? 0)%nat then "N/A" else PyStr.slice_to 500 t +:+ "..."
  end.

Definition skipped_report (text : option string) : Report :=
  {| summary := "N/A - Could not process article text.";
     entities := ∅;
     article_type := "N/A";
     financial_facts := [];
     raw_text := Some (raw_excerpt text) |}.

(** The first [try] block: the lightweight summary. *)
Definition summary_of (nlp : Nlp) (text : string) : string :=
  try_except
    (let text_clean := PyStr.strip text in
     let text_to_summarize := PyStr.slice_to MAX_CHARS text_clean in
     match nlp with
     | None => Raise (RuntimeError "spaCy model not available for summarization.")
     | Some parse =>
         bind (parse text_to_summarize) (fun doc =>
           let summary_sentences :=
             map (fun sent => PyStr.strip (sent_text sent)) (take 3 (sents doc)) in
           Ok (match summary_sentences with
               | [] => PyStr.slice_to 300 text_to_summarize +:+ "..."
               | _ => PyStr.join " " summary_sentences
               end))
     end)
    (fun e => "Could not generate summary.").

Definition PARSE_CHARS : nat := 50 * 1000.   (* the 50000 of [text[:50000]] *)

(** [doc = nlp(text[:50000]) if nlp is not None else None] *)
Definition parse_doc (nlp : Nlp) (text : string) : result (option Doc) :=
  match nlp with
  | Some parse => bind (parse (PyStr.slice_to PARSE_CHARS text)) (fun d => Ok (Some d))
  | None => Ok None
  end.

(** [[ent.text.strip() for ent in doc.ents if ent.label_ == label]] *)
Definition label_entities (label : string) (doc : Doc) : list string :=
  map (fun ent => PyStr.strip (ent_text ent))
    (filter (fun ent => label_ ent = label) (ents doc)).

(** [[item.replace("\n", " ") for item, count in Counter(l).most_common(5)]] *)
Definition common_entities (mentions : list string) : list string :=
  map (fun '(item, count) => PyStr.replace_newline item)
    (Counter.most_common 5 (Counter.of_list mentions)).

Definition LABELS : list string := ["ORG"; "PERSON"; "GPE"].

Definition entities_of (doc : option Doc) : gmap string (list string) :=
  match doc with
  | Some d =>
      foldl (fun entities label =>
               match label_entities label d with
               | [] => <[label := []]> entities
               | mentions => <[label := common_entities mentions]> entities
               end)
        ∅ LABELS
  | None => <["GPE" := []]> (<["PERSON" := []]> (<["ORG" := []]> ∅))
  end.

(** [" ".join(text.split()[:200])] *)
Definition text_for_classification (text : string) : string :=
  PyStr.join " " (take 200 (PyStr.split text)).

(** The second [try] block: the article type. *)
Definition article_type_of (classifier : Classifier) (text : string) : string :=
  try_except (classifier (text_for_classification text))
    (fun e => "Classification Failed").

Definition run_analysis (nlp : Nlp) (classifier : Classifier)
    (text : option string) : result Report :=
  match text with
  | Some t =>
      if skipped text then Ok (skipped_report text)
      else
        let summary := summary_of nlp t in
        bind (parse_doc nlp t) (fun doc =>
          let entities := entities_of doc in
          let article_type := article_type_of classifier t in
          bind (_heuristic_contextual_linker doc) (fun financial_facts_df =>
            Ok {| summary := summary;
                  entities := entities;
                  article_type := article_type;
                  financial_facts := financial_facts_df;
                  raw_text := None |}))
  | None => Ok (skipped_report text)
  end.

(** ** Model loading, at import time *)

(** What importing the module leaves: the process has exited, or both
    globals are bound. *)
Inductive Startup :=
| Exited
| Loaded (nlp : Nlp) (classifier : Classifier).

(** The large model, the small one on [OSError], [None] on anything else. *)
Definition load_nlp (load_lg load_sm : result (string -> result Doc)) : Nlp :=
  try_except
    (match load_lg with
     | Ok m => Ok (Some m)
     | Raise e =>
         if is_OSError e then bind load_sm (fun m => Ok (Some m)) else Raise e
     end)
    (fun e => None).

(** Both handlers of [joblib.load] end in [exit()]. *)
Definition load_models (load_lg load_sm : result (string -> result Doc))
    (load_pkl : result Classifier) : Startup :=
  let nlp := load_nlp load_lg load_sm in
  match load_pkl with
  | Ok classifier => Loaded nlp classifier
  | Raise e => Exited
  end.

(** [from nlp_pipeline import run_analysis] and then a call, as [app.py]
    does: [None] when the import has ended the process. *)
Definition import_then_run (load_lg load_sm : result (string -> result Doc))
    (load_pkl : result Classifier) (text : option string)
  : option (result Report) :=
  match load_models load_lg load_sm load_pkl with
  | Exited => None
  | Loaded nlp classifier => Some (run_analysis nlp classifier text)
  end.

(** ** [re.sub], and the pattern of [is_url] *)

Module ReMore.

(** The scan of [re.sub] for a pattern that matches no empty text: a match
    is replaced by [repl], any other character is kept.  [skip] counts the
    characters of the last match that still lie ahead. *)
Fixpoint sub_scan (ignorecase : bool) (r : Re.regex) (repl : string)
    (skip : nat) (s : string) : string :=
  match s with
  | EmptyString => EmptyString
  | String c s' =>
      match skip with
      | S n => sub_scan ignorecase r repl n s'
      | O =>
          match Re.match_at ignorecase r s with
          | Some m => repl +:+ sub_scan ignorecase r repl (PyStr.len m - 1) s'
          | None => String c (sub_scan ignorecase r repl 0 s')
          end
      end
  end.

(** [re.sub(pattern, repl, s)] *)
Definition sub (r : Re.regex) (repl s : string) : string :=
  sub_scan false r repl 0 s.

(** One character outside the class: [[^...]]. *)
Definition not_in (cls : list Re.citem) (s : string)
    (k : string -> option string) : option string :=
  match s with
  | String c s' => if Re.in_class cls c then None else k s'
  | EmptyString => None
  end.

(** [.]: any character but a newline. *)
Definition dot (s : string) (k : string -> option string) : option string :=
  match s with
  | String c s' => if (PyStr.code c =? 10)%nat then None else k s'
  | EmptyString => None
  end.

(** Greedy [[^...]*]. *)
Fixpoint star_not_in (cls : list Re.citem) (s : string)
    (k : string -> option string) : option string :=
  match s with
  | String c s' =>
      if Re.in_class cls c then k s
      else
        match star_not_in cls s' k with
        | Some rest => Some rest
        | None => k s
        end
  | EmptyString => k s
  end.

End ReMore.

(** ** [get_article_text] *)

(** A string without whitespace, and a token: a non-empty one. *)
Definition no_space (s : string) : Prop :=
  Forall (λ c, PyStr.isspace c = false) (list_ascii_of_string s).

Definition is_token (tok : string) : Prop := tok ≠ "" ∧ no_space tok.

Module Scrape.

(** What [BeautifulSoup] answers to the queries of [get_article_text]: the
    stripped text of the first [h1], and for [article], [main], [body] and
    the whole soup the text that [get_text(separator=' ', strip=True)] gives
    (for the first three after the unwanted elements are decomposed). *)
Record Soup := {
  h1 : option string;
  article : option string;
  main : option string;
  body : option string;
  soup_text : string
}.

(** How the [try] block goes: [requests] raises a [RequestException], some
    other exception is raised, or the page is parsed.  The string is
    [str(e)]. *)
Inductive Fetched :=
| RequestException (e : string)
| OtherException (e : string)
| Parsed (soup : Soup).

(** The returned dict. *)
Record ScrapeData := { text : string; heading : string }.

(** [a or b] on optional tags (a found tag is true). *)
Definition or_else {A} (a b : option A) : option A :=
  match a with
  | Some _ => a
  | None => b
  end.

(** [\s+] *)
Definition whitespace_run : Re.regex := Re.Plus [Re.Space].

(** [re.sub(r'\s+', ' ', text).strip()] *)
Definition clean (text : string) : string :=
  PyStr.strip (ReMore.sub whitespace_run " " text).

Definition get_article_text (page : Fetched) : ScrapeData :=
  match page with
  | Parsed soup =>
      let heading :=
        match h1 soup with
        | Some title => title
        | None => "Article Report"
        end in
      let main_content := or_else (article soup) (or_else (main soup) (body soup)) in
      let text :=
        match main_content with
        | Some content => content
        | None => soup_text soup
        end in
      {| text := clean text; heading := heading |}
  | RequestException e =>
      {| text := "Error: Could not retrieve article. " +:+ e;
         heading := "Scrape Failed" |}
  | OtherException e =>
      {| text := "Error: Could not parse article. " +:+ e;
         heading := "Parse Failed" |}
  end.

End Scrape.

(** ** [app.py] *)

Module App.

(** [https?://] *)
Definition url_scheme : Re.regex :=
  Re.Seq (Re.Lit "http") (Re.Seq (Re.Opt (Re.Lit "s")) (Re.Lit "://")).

(** The class [[^\s/$.?#]] as a predicate. *)
Definition host_start (c : ascii) : Prop :=
  PyStr.isspace c = false
  ∧ c ≠ "/"%char ∧ c ≠ "$"%char ∧ c ≠ "."%char ∧ c ≠ "?"%char ∧ c ≠ "#"%char.

(** [re.match(r'https?://[^\s/$.?#].[^\s]*', string) is not None] *)
Definition is_url (query : string) : bool :=
  match
    Re.run false url_scheme query (λ s1,
      ReMore.not_in [Re.Space; Re.Char "/"; Re.Char "$"; Re.Char ".";
                     Re.Char "?"; Re.Char "#"] s1 (λ s2,
        ReMore.dot s2 (λ s3,
          ReMore.star_not_in [Re.Space] s3 Some)))
  with
  | Some _ => true
  | None => false
  end.

(** [str(e)] *)
Definition str (e : exn) : string :=
  match e with
  | AttributeError msg | RuntimeError msg | OSError msg
  | FileNotFoundError msg | Exception msg => msg
  end.

(** One entry of [all_reports_data]: the dict of [run_analysis] (or the
    error report) with the keys added by the route. *)
Record ReportData := {
  report : Report;
  url : string;
  heading : string;
  financial_facts_table : option string
}.

Section Route.
(** The page behind a URL, the two models, and [DataFrame.to_html]. *)
Variable web : string -> Scrape.Fetched.
Variable nlp : Nlp.
Variable classifier : Classifier.
Variable to_html : list Fact -> string.

(** The body of the loop over [urls_to_process]. *)
Definition process_url (url : string) : ReportData :=
  try_except
    (let scrape_data := Scrape.get_article_text (web url) in
     let text := Scrape.text scrape_data in
     bind (run_analysis nlp classifier (Some text)) (λ report_data,
       Ok {| report := report_data;
             url := url;
             heading := Scrape.heading scrape_data;
             financial_facts_table :=
               match financial_facts report_data with
               | [] => None
               | facts => Some (to_html facts)
               end |}))
    (λ e,
       {| report :=
            {| summary := "A critical error occurred during analysis: " +:+ str e;
               entities := ∅;
               article_type := "Analysis Failed";
               financial_facts := [];
               raw_text := None |};
          url := url;
          heading := "Analysis Failed";
          financial_facts_table := None |}).

(** The [all_reports] that the route [/analyze] renders for a query. *)
Definition analyze (query : string) : list ReportData :=
  let urls_to_process := if is_url query then [query] else [] in
  match urls_to_process with
  | [] => []
  | _ => process_url <$> urls_to_process
  end.

End Route.

End App.

(** ** [export_report.py] *)

Module ExportReport.

(** The scan of [s.replace(old, new)] for a non-empty [old]: occurrences are
    replaced from the left, none overlapping another.  [skip] counts the
    characters of the last occurrence that still lie ahead. *)
Fixpoint replace_scan (old new : string) (skip : nat) (s : string) : string :=
  match s with
  | EmptyString => EmptyString
  | String c s' =>
      match skip with
      | S n => replace_scan old new n s'
      | O =>
          if PyStr.startswith old s
          then new +:+ replace_scan old new (PyStr.len old - 1) s'
          else String c (replace_scan old new 0 s')
      end
  end.

Definition replace (old new s : string) : string := replace_scan old new 0 s.

(** A tag of the parsed page: [elem.name] and [elem.get_text(strip=True)].
    The soup is the list of its tags in document order. *)
Record Tag := { name : string; get_text : string }.

(** [soup.find_all(names)] and [soup.find(names)] *)
Definition find_all (names : list string) (soup : list Tag) : list Tag :=
  filter (λ elem, name elem ∈ names) soup.

Definition find (names : list string) (soup : list Tag) : option Tag :=
  head (find_all names soup).

(** What [html_to_word] adds to the document: [add_heading(text, level)],
    [add_paragraph(text)], and for a list item the paragraph of a bullet, a
    space and the text, with its runs at 11 pt. *)
Inductive Block :=
| Heading (text : string) (level : nat)
| Paragraph (text : string)
| BulletParagraph (text : string).

(** [not text] *)
Definition empty (text : string) : bool := (PyStr.len text =? 0)%nat.

(** The body of the loop over [find_all(['h1', 'h2', 'h3', 'p', 'li'])]. *)
Definition block_of (elem : Tag) : list Block :=
  let text := get_text elem in
  if empty text then []
  else if decide (name elem = "h1") then [Heading text 1]
  else if decide (name elem = "h2") then [Heading text 2]
  else if decide (name elem = "h3") then [Heading text 3]
  else if decide (name elem = "li") then [BulletParagraph text]
  else [Paragraph text].

(** The document that [html_to_word] builds before it saves it. *)
Definition html_to_word (soup : list Tag) : list Block :=
  let title_tag := find ["h1"; "title"] soup in
  let title :=
    match title_tag with
    | Some tag => if empty (get_text tag) then [] else [Heading (get_text tag) 1]
    | None => []
    end in
  title ++ flat_map block_of (find_all ["h1"; "h2"; "h3"; "p"; "li"] soup).

(** The calls that [html_to_pdf] makes outside its module, and to
    [html_to_word]. *)
Inductive Call :=
| PdfkitFromFile (html pdf : string)
| PdfkitFromString (html pdf : string)
| HtmlToWord (html docx : string) (is_path : bool)
| Docx2Pdf (docx pdf : string)
| PathExists (path : string)
| Remove (path : string).

(** The surroundings of one call of [html_to_pdf]: which converters were
    imported, how each call ends, and whether the temporary file exists when
    the [finally] block looks for it. *)
Record World := {
  PDFKIT_AVAILABLE : bool;
  docx2pdf_imported : bool;
  run : Call -> result unit;
  path_exists : string -> bool
}.

Definition lf : string := String (ascii_of_nat 10) "".

Definition no_converter : exn :=
  RuntimeError
    ("PDF conversion failed. Install wkhtmltopdf for best results:" +:+ lf
     +:+ "  Windows: choco install wkhtmltopdf  OR  download from https://wkhtmltopdf.org" +:+ lf
     +:+ "  Linux: apt-get install wkhtmltopdf" +:+ lf
     +:+ "  macOS: brew install --cask wkhtmltopdf" +:+ lf
     +:+ "Then install pdfkit: pip install pdfkit").

(** [pdf_file.replace('.pdf', '_temp.docx')] *)
Definition temp_docx (pdf_file : string) : string :=
  replace ".pdf" "_temp.docx" pdf_file.

(** The part after the [pdfkit] attempt: the calls made and the outcome. *)
Definition fallback (w : World) (html pdf_file : string) (is_path : bool)
  : list Call * result unit :=
  if negb (docx2pdf_imported w) then ([], Raise no_converter)
  else
    let temp := temp_docx pdf_file in
    let '(calls, outcome) :=
      match run w (HtmlToWord html temp is_path) with
      | Ok _ =>
          ([HtmlToWord html temp is_path; Docx2Pdf temp pdf_file],
           run w (Docx2Pdf temp pdf_file))
      | Raise e => ([HtmlToWord html temp is_path], Raise e)
      end in
    (* finally *)
    let cleanup :=
      if path_exists w temp then [PathExists temp; Remove temp]
      else [PathExists temp] in
    (calls ++ cleanup, outcome).

Definition html_to_pdf (w : World) (html pdf_file : string) (is_path : bool)
  : list Call * result unit :=
  if PDFKIT_AVAILABLE w then
    let convert :=
      if is_path then PdfkitFromFile html pdf_file
      else PdfkitFromString html pdf_file in
    match run w convert with
    | Ok _ => ([convert], Ok tt)
    | Raise e =>
        let '(calls, outcome) := fallback w html pdf_file is_path in
        (convert :: calls, outcome)
    end
  else fallback w html pdf_file is_path.

End ExportReport.

(** ** [download_report] of [app.py] *)

Module Download.

(** [pdf_temp_path = html_temp_path.replace('.html', '.pdf')] of
    [download_report], for the temporary file that
    [NamedTemporaryFile(suffix='.html')] has named. *)
Definition pdf_temp_path (html_temp_path : string) : string :=
  ExportReport.replace ".html" ".pdf" html_temp_path.

End Download.

(** ** Concrete inputs *)

Module Examples.

Definition org (name : string) : Ent := {| ent_text := name; label_ := "ORG" |}.

Definition fact (company metric value : string) : Fact :=
  {| Company := company; Metric := metric; Value := value |}.

(** The two sentences of the Microsoft example. *)
Definition microsoft_sentence : Sent :=
  {| sent_text := "Microsoft reported revenue of $56.5 billion.";
     sent_ents := [org "Microsoft"] |}.

Definition it_also_grew : Sent :=
  {| sent_text := "It also grew."; sent_ents := [] |}.

Definition microsoft_doc : Doc :=
  {| sents := [microsoft_sentence; it_also_grew];
     ents := [org "Microsoft"] |}.

(** An article of 170 characters that opens with those two sentences. *)
Definition article : string :=
  "Microsoft reported revenue of $56.5 billion. It also grew. The quarter was strong across cloud and devices, and management raised its outlook for the coming year as well.".

Definition parse_microsoft : string -> result Doc := λ _, Ok microsoft_doc.

(** A parse without sentences. *)
Definition no_sentences : Doc := {| sents := []; ents := [] |}.
Definition parse_nothing : string -> result Doc := λ _, Ok no_sentences.

Definition news_classifier : Classifier := λ _, Ok "News".
Definition failing_classifier : Classifier :=
  λ _, Raise (Exception "predict failed").

(** A value followed by a word that is no unit: the match is "$5 ". *)
Definition five_dollars : Sent :=
  {| sent_text := "Apple said revenue rose to $5 today.";
     sent_ents := [org "Apple"] |}.

(** Keywords of two metrics around one figure. *)
Definition two_metrics : Sent :=
  {| sent_text := "Apple said revenue and net income both reached $5 billion.";
     sent_ents := [org "Apple"] |}.

(** A minor organization named before a preferred one. *)
Definition minor_then_major : Sent :=
  {| sent_text := "Contoso and Microsoft Azure signed with Apple.";
     sent_ents := [org "Contoso"; org "Microsoft Azure"; org "Apple"] |}.

(** Organizations that are not on the list. *)
Definition minor_only : Sent :=
  {| sent_text := "Contoso met Ada Lovelace of Fabrikam.";
     sent_ents := [org "Contoso";
                   {| ent_text := "Ada Lovelace"; label_ := "PERSON" |};
                   org "Fabrikam"] |}.

(** The same fact stated twice. *)
Definition stated_twice : Doc :=
  {| sents := [microsoft_sentence; it_also_grew; microsoft_sentence];
     ents := [org "Microsoft"; org "Microsoft"] |}.

(** Keywords and values, but no organization anywhere. *)
Definition anonymous : Doc :=
  {| sents := [ {| sent_text := "Revenue was $3 billion and sales were $4 billion.";
                   sent_ents := [] |};
                {| sent_text := "Net income was $1 billion.";
                   sent_ents := [ {| ent_text := "Satya Nadella"; label_ := "PERSON" |} ] |} ];
     ents := [ {| ent_text := "Satya Nadella"; label_ := "PERSON" |} ] |}.

(** A dollar sign followed by blanks, under the Earnings Per Share keyword:
    the match is "$  ". *)
Definition eps_bare : Sent :=
  {| sent_text := "Apple put earnings per share in $  terms.";
     sent_ents := [org "Apple"] |}.

(** Keywords of Revenue and of Earnings Per Share in one sentence. *)
Definition revenue_and_eps : Sent :=
  {| sent_text := "Apple said revenue was $3 billion and earnings per share $ 1.25 today.";
     sent_ents := [org "Apple"] |}.

(** A figure in a sentence without organization, between two sentences that
    name one. *)
Definition revenue_rose : Sent :=
  {| sent_text := "Revenue then rose to $60 billion."; sent_ents := [] |}.

Definition contoso_sentence : Sent :=
  {| sent_text := "Contoso reported sales of $2 million.";
     sent_ents := [org "Contoso"] |}.

Definition three_sentences : Doc :=
  {| sents := [microsoft_sentence; revenue_rose; contoso_sentence];
     ents := [org "Microsoft"; org "Contoso"] |}.

Definition newline : string := String (ascii_of_nat 10) "".

(** One organization, once with a line break inside and once without. *)
Definition wrapped_mention : Doc :=
  {| sents := [];
     ents := [org ("Acme" +:+ newline +:+ "Corp"); org "Acme Corp"] |}.

(** Six organizations of varying frequency. *)
Definition six_orgs : Doc :=
  {| sents := [];
     ents := org <$> ["Intel"; "Apple"; "Nvidia"; "Apple"; "AMD"; "Nvidia";
                      "Apple"; "Dell"; "IBM"; "Dell"] |}.

End Examples.

(** * Properties *)

(** ** Strings *)

Section StringFacts.

Lemma len_append (a b : string) :
  PyStr.len (a +:+ b) = PyStr.len a + PyStr.len b.
Proof.
  unfold PyStr.len. induction a as [|c a IH]; simpl; [reflexivity|].
  now rewrite IH.
Qed.

Lemma len_slice_to (n : nat) (s : string) :
  PyStr.len (PyStr.slice_to n s) = n `min` PyStr.len s.
Proof.
  unfold PyStr.len. revert s.
  induction n as [|n IH]; intros [|c s]; simpl; try reflexivity.
  now rewrite IH.
Qed.

Lemma slice_to_slice_to (n m : nat) (s : string) :
  PyStr.slice_to n (PyStr.slice_to m s) = PyStr.slice_to (n `min` m) s.
Proof.
  revert m s. induction n as [|n IH]; intros [|m] [|c s]; simpl; try reflexivity.
  now rewrite IH.
Qed.

Lemma endswith_refl (p : string) : PyStr.endswith p p = true.
Proof. destruct p; simpl; rewrite ?Ascii.eqb_refl, ?String.eqb_refl; reflexivity. Qed.

Lemma endswith_append (a p : string) : PyStr.endswith p (a +:+ p) = true.
Proof.
  induction a as [|c a IH]; simpl.
  - apply endswith_refl.
  - rewrite IH. apply orb_true_r.
Qed.

End StringFacts.

(** ** [drop_duplicates] *)

Section DropFacts.
Context {A : Type} `{EqDecision A}.
Implicit Types (x : A) (seen rows : list A).

Lemma elem_of_drop_from seen rows x :
  x ∈ Pandas.drop_from seen rows ↔ x ∈ rows ∧ x ∉ seen.
Proof.
  revert seen. induction rows as [|r rows IH]; intros seen; simpl.
  - set_solver.
  - case_decide.
    + rewrite IH. set_solver.
    + rewrite !elem_of_cons, IH.
      destruct (decide (x = r)) as [->|]; set_solver.
Qed.

Lemma NoDup_drop_from seen rows : NoDup (Pandas.drop_from seen rows).
Proof.
  revert seen. induction rows as [|r rows IH]; intros seen; simpl.
  - constructor.
  - case_decide; [apply IH|].
    constructor; [|apply IH].
    rewrite elem_of_drop_from. set_solver.
Qed.

Lemma StronglySorted_impl_elem (R R' : A → A → Prop) (l : list A) :
  (∀ a b, a ∈ l → b ∈ l → R a b → R' a b) →
  StronglySorted R l → StronglySorted R' l.
Proof.
  intros Himp Hs. induction Hs as [|a l Hs IH Hall]; constructor.
  - apply IH. intros; apply Himp; try (apply elem_of_cons; right); done.
  - rewrite Forall_forall in *. intros b Hb.
    apply Himp; [apply elem_of_cons; by left|apply elem_of_cons; by right|].
    by apply Hall.
Qed.

(** The rows that survive stand in the order of their first occurrences. *)
Lemma drop_from_sorted seen rows :
  StronglySorted (λ a b, Pandas.index_of a rows < Pandas.index_of b rows)
    (Pandas.drop_from seen rows).
Proof.
  revert seen. induction rows as [|r rows IH]; intros seen; simpl.
  - constructor.
  - case_decide as Hin.
    + eapply StronglySorted_impl_elem; [|apply (IH seen)].
      intros a b Ha Hb Hlt. apply elem_of_drop_from in Ha, Hb.
      cbn beta in *. rewrite !decide_False by set_solver. lia.
    + constructor.
      * eapply StronglySorted_impl_elem; [|apply (IH (r :: seen))].
        intros a b Ha Hb Hlt. apply elem_of_drop_from in Ha, Hb.
        cbn beta in *. rewrite !decide_False by set_solver. lia.
      * rewrite Forall_forall. intros b Hb. apply elem_of_drop_from in Hb.
        rewrite decide_True by done.
        rewrite decide_False by set_solver. lia.
Qed.

Lemma drop_from_snoc seen rows x :
  Pandas.drop_from seen (rows ++ [x]) =
  Pandas.drop_from seen rows ++ (if decide (x ∈ seen ∨ x ∈ rows) then [] else [x]).
Proof.
  revert seen. induction rows as [|r rows IH]; intros seen; simpl.
  - destruct (decide (x ∈ seen)) as [Hs|Hs];
      destruct (decide (x ∈ seen ∨ x ∈ [])) as [Hd|Hd]; try reflexivity.
    + exfalso. apply Hd. by left.
    + exfalso. destruct Hd as [Hd|Hd]; [done|]. by apply elem_of_nil in Hd.
  - destruct (decide (r ∈ seen)) as [Hin|Hin]; rewrite IH; simpl.
    + f_equal.
      destruct (decide (x ∈ seen ∨ x ∈ rows)) as [Hd|Hd];
        destruct (decide (x ∈ seen ∨ x ∈ r :: rows)) as [He|He]; try reflexivity.
      * exfalso. apply He. rewrite elem_of_cons. tauto.
      * exfalso. apply Hd. rewrite elem_of_cons in He.
        destruct He as [?|[->|?]]; tauto.
    + f_equal. f_equal.
      destruct (decide (x ∈ r :: seen ∨ x ∈ rows)) as [Hd|Hd];
        destruct (decide (x ∈ seen ∨ x ∈ r :: rows)) as [He|He]; try reflexivity.
      * exfalso. apply He. rewrite elem_of_cons in *. tauto.
      * exfalso. apply Hd. rewrite elem_of_cons in *. tauto.
Qed.

Lemma elem_of_drop_duplicates rows x :
  x ∈ Pandas.drop_duplicates rows ↔ x ∈ rows.
Proof. unfold Pandas.drop_duplicates. rewrite elem_of_drop_from. set_solver. Qed.

End DropFacts.

(** ** [Counter] and [most_common] *)

Section CounterFacts.
Import Counter.
Implicit Types (x y : string) (c : list (string * nat)) (l : list string).

Lemma keys_incr x c :
  (incr x c).*1 = c.*1 ++ (if decide (x ∈ c.*1) then [] else [x]).
Proof.
  induction c as [|[y n] c IH]; csimpl; [reflexivity|].
  destruct (decide (x = y)) as [->|Hne]; csimpl.
  - rewrite decide_True by (apply elem_of_cons; by left).
    by rewrite app_nil_r.
  - rewrite IH. f_equal.
    destruct (decide (x ∈ c.*1)) as [Hin|Hin].
    + rewrite decide_True by (apply elem_of_cons; by right). done.
    + rewrite decide_False; [done|].
      rewrite elem_of_cons. tauto.
Qed.

Lemma counts_incr (f : string → nat) x c :
  Forall (λ p, p.2 = f p.1) c → NoDup c.*1 → (x ∉ c.*1 → f x = 0) →
  Forall (λ p, p.2 = f p.1 + (if decide (x = p.1) then 1 else 0)) (incr x c).
Proof.
  induction c as [|[y n] c IH]; simpl; intros Hc Hnd Hx.
  - constructor; [|constructor]. simpl. rewrite decide_True by done.
    rewrite Hx; [done|]. apply not_elem_of_nil.
  - apply Forall_cons in Hc as [Hy Hc]. apply NoDup_cons in Hnd as [Hy' Hnd].
    simpl in Hy. destruct (decide (x = y)) as [->|Hne].
    + constructor.
      * simpl. rewrite decide_True by done. lia.
      * rewrite Forall_forall in *. intros [z m] Hz. simpl.
        rewrite decide_False.
        { specialize (Hc _ Hz). simpl in Hc. lia. }
        intros ->. apply Hy'. apply list_elem_of_fmap. by exists (z, m).
    + constructor.
      * simpl. rewrite decide_False by done. lia.
      * apply IH; try done. intros Hn. apply Hx.
        rewrite elem_of_cons. tauto.
Qed.

Lemma frequency_snoc y l x :
  frequency y (l ++ [x]) = frequency y l + (if decide (x = y) then 1 else 0).
Proof.
  unfold frequency. rewrite filter_app, length_app. f_equal.
  rewrite filter_cons, filter_nil. by destruct (decide (x = y)).
Qed.

Lemma frequency_0 y l : y ∉ l → frequency y l = 0.
Proof.
  unfold frequency. intros Hy. induction l as [|z l IH]; [done|].
  rewrite not_elem_of_cons in Hy. destruct Hy as [Hne Hy].
  rewrite filter_cons, decide_False by done. by apply IH.
Qed.

Lemma of_list_snoc l x : of_list (l ++ [x]) = incr x (of_list l).
Proof. unfold of_list. by rewrite fold_left_app. Qed.

(** The keys of a counter are the distinct elements in first-seen order,
    each with its frequency. *)
Lemma of_list_spec l :
  (of_list l).*1 = Pandas.drop_duplicates l
  ∧ Forall (λ p, p.2 = frequency p.1 l) (of_list l).
Proof.
  induction l as [|x l [IHk IHc]] using rev_ind; [by split|].
  rewrite of_list_snoc. split.
  - rewrite keys_incr, IHk. unfold Pandas.drop_duplicates.
    rewrite drop_from_snoc. f_equal.
    destruct (decide (x ∈ Pandas.drop_from [] l)) as [Hin|Hin];
      destruct (decide (x ∈ [] ∨ x ∈ l)) as [Hd|Hd]; try reflexivity; exfalso.
    + apply Hd. right. by apply (elem_of_drop_duplicates l x).
    + apply Hin. apply (elem_of_drop_duplicates l x).
      destruct Hd as [Hd|Hd]; [by apply elem_of_nil in Hd|done].
  - eapply Forall_impl.
    + apply (counts_incr (λ y, frequency y l)); [done| |].
      * rewrite IHk. apply NoDup_drop_from.
      * rewrite IHk, elem_of_drop_duplicates. apply frequency_0.
    + intros [y n]. simpl. intros ->. by rewrite frequency_snoc.
Qed.

Lemma insert_desc_perm (p : string * nat) c : insert_desc p c ≡ₚ p :: c.
Proof.
  induction c as [|q c IH]; simpl; [done|].
  destruct (q.2 <=? p.2); [done|].
  rewrite IH. apply Permutation_swap.
Qed.

Lemma sort_desc_perm c : sort_desc c ≡ₚ c.
Proof.
  induction c as [|p c IH]; simpl; [done|].
  by rewrite insert_desc_perm, IH.
Qed.

Lemma insert_desc_sorted B (p : string * nat) c :
  StronglySorted (sorted_by B) c → Forall (B p) c →
  StronglySorted (sorted_by B) (insert_desc p c).
Proof.
  induction c as [|q c IH]; simpl; intros Hs Hb.
  - repeat constructor.
  - apply StronglySorted_inv in Hs as [Hs Hq].
    apply Forall_cons in Hb as [Hpq Hb].
    destruct (q.2 <=? p.2) eqn:Hle.
    + apply Nat.leb_le in Hle. constructor; [by constructor|].
      constructor.
      * unfold sorted_by. destruct (decide (q.2 = p.2)); [right|left]; [done|lia].
      * rewrite Forall_forall in *. intros r Hr.
        specialize (Hq r Hr). specialize (Hb r Hr). unfold sorted_by in *.
        destruct (decide (r.2 = p.2)); [right|left]; [done|lia].
    + apply Nat.leb_gt in Hle. constructor; [by apply IH|].
      rewrite Forall_forall in *. intros r Hr.
      rewrite insert_desc_perm in Hr.
      apply elem_of_cons in Hr as [->|Hr]; [by left|by apply Hq].
Qed.

Lemma sort_desc_sorted B c :
  StronglySorted B c → StronglySorted (sorted_by B) (sort_desc c).
Proof.
  induction 1 as [|p c Hs IH Hp]; simpl; [constructor|].
  apply insert_desc_sorted; [done|].
  by rewrite sort_desc_perm.
Qed.

Lemma StronglySorted_fmap {A B} (f : A → B) (R : B → B → Prop) (l : list A) :
  StronglySorted (λ a b, R (f a) (f b)) l ↔ StronglySorted R (f <$> l).
Proof.
  induction l as [|a l IH]; simpl.
  - split; constructor.
  - split; intros [Hs Ha]%StronglySorted_inv; constructor;
      try (by apply IH); by rewrite ?Forall_fmap in *.
Qed.

Lemma ranking_spec l :
  NoDup (ranking l) ∧ (∀ x, x ∈ ranking l ↔ x ∈ l)
  ∧ StronglySorted (ranks_before l) (ranking l).
Proof.
  destruct (of_list_spec l) as [Hk Hc]. unfold ranking.
  assert (Hperm : (sort_desc (of_list l)).*1 ≡ₚ Pandas.drop_duplicates l).
  { by rewrite sort_desc_perm, Hk. }
  split; [|split].
  - rewrite Hperm. apply NoDup_drop_from.
  - intros x. rewrite Hperm. apply elem_of_drop_duplicates.
  - apply (proj1 (StronglySorted_fmap fst (ranks_before l) _)).
    eapply StronglySorted_impl_elem;
      [|apply (sort_desc_sorted
                 (λ p q, Pandas.index_of p.1 l < Pandas.index_of q.1 l))].
    + intros p q Hp Hq Hpq. rewrite sort_desc_perm in Hp, Hq.
      rewrite Forall_forall in Hc.
      unfold ranks_before, sorted_by in *.
      rewrite <- (Hc p Hp), <- (Hc q Hq). done.
    + apply (proj2 (StronglySorted_fmap fst
                      (λ a b, Pandas.index_of a l < Pandas.index_of b l) _)).
      rewrite Hk. apply drop_from_sorted.
Qed.

End CounterFacts.

(** ** The linker loop *)

Section LinkerFacts.

Lemma next_org_no_org cur sent : no_org sent → next_org cur sent = cur.
Proof. unfold no_org, next_org. by intros ->. Qed.

Lemma final_org_app cur pre post :
  final_org cur (pre ++ post) = final_org (final_org cur pre) post.
Proof. unfold final_org. apply fold_left_app. Qed.

Lemma final_org_no_org cur pre : Forall no_org pre → final_org cur pre = cur.
Proof.
  induction 1 as [|sent pre Hs _ IH]; simpl; [done|].
  unfold final_org in *. simpl. by rewrite next_org_no_org.
Qed.

(** The loop may be cut anywhere: what carries over is [current_org]. *)
Lemma link_loop_app cur pre post :
  link_loop cur (pre ++ post)
  = link_loop cur pre ++ link_loop (final_org cur pre) post.
Proof.
  revert cur. induction pre as [|sent pre IH]; intros cur; simpl; [done|].
  destruct (truthy (next_org cur sent)); rewrite IH; [|done].
  by rewrite <- app_assoc.
Qed.

Lemma link_loop_no_org pre : Forall no_org pre → link_loop None pre = [].
Proof.
  induction 1 as [|sent pre Hs _ IH]; simpl; [done|].
  by rewrite next_org_no_org.
Qed.

Lemma truthy_Some cur org : truthy cur = Some org → cur = Some org.
Proof.
  destruct cur as [o|]; simpl; [|done].
  destruct (PyStr.len o =? 0); [done|]. by intros [= ->].
Qed.

(** The contribution of one sentence that has an active organization. *)
Lemma link_loop_at pre sent post org :
  truthy (final_org None (pre ++ [sent])) = Some org →
  link_loop None (pre ++ sent :: post)
  = link_loop None pre ++ sentence_facts org sent ++ link_loop (Some org) post.
Proof.
  intros Ht. rewrite link_loop_app. f_equal. simpl.
  rewrite final_org_app in Ht. unfold final_org at 1 in Ht. simpl in Ht.
  rewrite Ht. by rewrite (truthy_Some _ _ Ht).
Qed.

Lemma linker_drop_duplicates d :
  _heuristic_contextual_linker (Some d)
  = Ok (Pandas.drop_duplicates (candidate_facts d)).
Proof. simpl. by destruct (candidate_facts d). Qed.

Lemma elem_of_metric_facts org name details sent f :
  f ∈ metric_facts org name details sent ↔
  keyword_hit details sent = true ∧
  ∃ value, value ∈ Re.findall (pattern details) (sent_text sent) true
           ∧ 2 < PyStr.len value
           ∧ f = {| Company := org; Metric := name; Value := PyStr.strip value |}.
Proof.
  unfold metric_facts. destruct (keyword_hit details sent).
  - rewrite list_elem_of_fmap. split.
    + intros (value & -> & Hv%list_elem_of_filter). split; [done|].
      exists value. tauto.
    + intros (_ & value & Hv & Hlen & ->). exists value. split; [done|].
      apply list_elem_of_filter. tauto.
  - split; [by intros ?%elem_of_nil|]. by intros [? _].
Qed.

Lemma elem_of_sentence_facts org sent f :
  f ∈ sentence_facts org sent ↔
  ∃ name details, (name, details) ∈ FINANCIAL_METRICS
                  ∧ f ∈ metric_facts org name details sent.
Proof.
  unfold sentence_facts. rewrite list_elem_of_In, in_flat_map. split.
  - intros ([name details] & Hin & Hf). exists name, details.
    by rewrite !list_elem_of_In.
  - intros (name & details & Hin & Hf). exists (name, details).
    by rewrite <- !list_elem_of_In.
Qed.

End LinkerFacts.

(** * The claims *)

Import Examples.

(** ** The pipeline as a whole *)

Lemma run_analysis_without_nlp classifier text :
  skipped (Some text) = false →
  run_analysis None classifier (Some text)
  = Raise (AttributeError "'NoneType' object has no attribute 'sents'").
Proof. intros Hs. unfold run_analysis. by rewrite Hs. Qed.

(** C1. [run_analysis] is meant never to raise, with a fallback for every
    stage when the spaCy model is missing.  It does raise: when both spaCy
    loads fail the import leaves [nlp = None], the summary and the entity map
    take their fallbacks, and the linker is then called on [doc = None],
    where [doc.sents] raises [AttributeError] outside every [try]. *)
Theorem run_analysis_raises_without_model :
  load_models (Raise (OSError "[E050] Can't find model 'en_core_web_lg'"))
    (Raise (OSError "[E050] Can't find model 'en_core_web_sm'"))
    (Ok news_classifier)
  = Loaded None news_classifier
  ∧ skipped (Some article) = false
  ∧ summary_of None article = "Could not generate summary."
  ∧ entities_of None !! "ORG" = Some []
  ∧ entities_of None !! "PERSON" = Some []
  ∧ entities_of None !! "GPE" = Some []
  ∧ _heuristic_contextual_linker None
    = Raise (AttributeError "'NoneType' object has no attribute 'sents'")
  ∧ run_analysis None news_classifier (Some article)
    = Raise (AttributeError "'NoneType' object has no attribute 'sents'").
Proof. repeat split; by vm_compute. Qed.

(** C2, as the code has it.  When the text is absent, empty, starts with
    "Error:" or is shorter than 150 characters, [run_analysis] returns at
    once, whatever the models are: the summary is
    "N/A - Could not process article text.", the entity map is empty (it has
    no key at all), the article type is "N/A", there is no fact, and
    [raw_text] is the first 500 characters followed by "..." ("N/A" when there
    is no text). *)
Theorem skipped_report_shape (nlp : Nlp) (classifier : Classifier)
    (text : option string) :
  (text = None
   ∨ ∃ t, text = Some t
          ∧ (PyStr.startswith "Error:" t = true ∨ PyStr.len t < 150)) →
  ∃ r, run_analysis nlp classifier text = Ok r
       ∧ (∀ nlp' classifier', run_analysis nlp' classifier' text = Ok r)
       ∧ summary r = "N/A - Could not process article text."
       ∧ (∀ label, entities r !! label = None)
       ∧ article_type r = "N/A"
       ∧ financial_facts r = []
       ∧ ∃ excerpt, raw_text r = Some excerpt
           ∧ PyStr.len excerpt ≤ 503
           ∧ match text with
             | Some (String c t) =>
                 excerpt = PyStr.slice_to 500 (String c t) +:+ "..."
             | _ => excerpt = "N/A"
             end.
Proof.
  intros Hguard. exists (skipped_report text).
  assert (Hs : skipped text = true).
  { destruct Hguard as [->|(t & -> & [Hp|Hlen])]; [done| |]; unfold skipped.
    - rewrite Hp. by rewrite orb_true_r.
    - apply Nat.ltb_lt in Hlen. rewrite Hlen. by rewrite orb_true_r. }
  assert (Hrun : ∀ n c, run_analysis n c text = Ok (skipped_report text)).
  { intros n c. unfold run_analysis. destruct text; [|done]. by rewrite Hs. }
  split; [apply Hrun|]. split; [apply Hrun|].
  split; [done|]. split; [intros label; apply lookup_empty|].
  split; [done|]. split; [done|].
  exists (raw_excerpt text). split; [done|].
  destruct text as [[|c t]|];
    [split; [compute; lia|done]| |split; [compute; lia|done]].
  unfold raw_excerpt. change (PyStr.len (String c t) =? 0) with false.
  split; [|done].
  rewrite len_append, len_slice_to. change (PyStr.len "...") with 3. lia.
Qed.

(** The skipped report of an upstream error text. *)
Lemma skipped_report_shape_witness :
  ∃ r, run_analysis None failing_classifier
         (Some "Error: Could not retrieve article. timeout") = Ok r
       ∧ summary r = "N/A - Could not process article text."
       ∧ raw_text r = Some "Error: Could not retrieve article. timeout...".
Proof.
  destruct (skipped_report_shape None failing_classifier
              (Some "Error: Could not retrieve article. timeout"))
    as (r & Hr & _ & Hsum & _ & _ & _ & excerpt & Hraw & _ & Hex).
  - right. eexists. split; [reflexivity|]. left. reflexivity.
  - exists r. split; [exact Hr|]. split; [exact Hsum|].
    rewrite Hraw, Hex. reflexivity.
Defined.

(** C2, as stated, fails on an upstream error text: the summary returned is
    not "N/A" and the entity map lacks the three category keys. *)
Lemma skipped_report_is_not_the_claimed_shape :
  ¬ ∃ r, run_analysis None failing_classifier
           (Some "Error: Could not retrieve article. timeout") = Ok r
         ∧ summary r = "N/A"
         ∧ (∀ label, label ∈ LABELS → entities r !! label = Some [])
         ∧ article_type r = "N/A"
         ∧ financial_facts r = [].
Proof.
  intros (r & Hr & Hsum & _). vm_compute in Hr.
  injection Hr as <-. discriminate Hsum.
Qed.

(** ** The summary *)

(** C3, as the code has it.  With a parse that has no sentence the summary is
    the first 300 characters of the stripped text cut at [MAX_CHARS] (which
    are the first 300 of the stripped text), followed by "...": it ends in
    "..." and has at most 303 characters.  With
    sentences it is the first three, stripped and joined by spaces.  The
    fixed string "Could not generate summary." is what the [except] branch
    gives, and that branch is taken when the model is missing ([nlp] is
    [None]) as well as when the parse raises. *)
Theorem summary_fallback (parse : string → result Doc) (text : string) (doc : Doc) :
  parse (PyStr.slice_to MAX_CHARS (PyStr.strip text)) = Ok doc →
  (sents doc = [] →
     summary_of (Some parse) text
     = PyStr.slice_to 300 (PyStr.slice_to MAX_CHARS (PyStr.strip text)) +:+ "..."
     ∧ summary_of (Some parse) text = PyStr.slice_to 300 (PyStr.strip text) +:+ "..."
     ∧ PyStr.endswith "..." (summary_of (Some parse) text) = true
     ∧ PyStr.len (summary_of (Some parse) text) ≤ 303)
  ∧ (sents doc ≠ [] →
     summary_of (Some parse) text
     = PyStr.join " " ((λ sent, PyStr.strip (sent_text sent)) <$> take 3 (sents doc)))
  ∧ summary_of None text = "Could not generate summary."
  ∧ (∀ (failing : string → result Doc) e,
       failing (PyStr.slice_to MAX_CHARS (PyStr.strip text)) = Raise e →
       summary_of (Some failing) text = "Could not generate summary.").
Proof.
  intros Hparse. split; [|split; [|split]].
  - intros Hnil.
    assert (Heq : summary_of (Some parse) text
                  = PyStr.slice_to 300 (PyStr.slice_to MAX_CHARS (PyStr.strip text))
                    +:+ "...").
    { unfold summary_of. rewrite Hparse. unfold bind, try_except.
      by rewrite Hnil. }
    rewrite Heq. split; [done|]. split; [|split; [apply endswith_append|]].
    + rewrite slice_to_slice_to.
      by replace (300 `min` MAX_CHARS) with 300 by (by vm_compute).
    + rewrite len_append, len_slice_to. change (PyStr.len "...") with 3. lia.
  - intros Hne. unfold summary_of. rewrite Hparse. unfold bind, try_except.
    destruct (sents doc) as [|s1 rest]; [done|]. reflexivity.
  - reflexivity.
  - intros failing e Hf. unfold summary_of. by rewrite Hf.
Qed.

(** The three summaries of one article: no sentences, sentences, a parse
    that raises. *)
Lemma summary_fallback_witness :
  summary_of (Some parse_nothing) article
  = "Microsoft reported revenue of $56.5 billion. It also grew. The quarter was strong across cloud and devices, and management raised its outlook for the coming year as well...."
  ∧ summary_of (Some parse_microsoft) article
    = "Microsoft reported revenue of $56.5 billion. It also grew."
  ∧ summary_of (Some (λ _, Raise (Exception "parse failed"))) article
    = "Could not generate summary.".
Proof.
  destruct (summary_fallback parse_nothing article no_sentences eq_refl)
    as (Hnone & _ & _ & Hfail).
  destruct (summary_fallback parse_microsoft article microsoft_doc eq_refl)
    as (_ & Hsome & _).
  split; [|split].
  - destruct (Hnone eq_refl) as (-> & _). by vm_compute.
  - rewrite Hsome; [by vm_compute|]. discriminate.
  - apply (Hfail _ (Exception "parse failed")). reflexivity.
Defined.

(** C3, as stated, fails when the model is unavailable: the summary is then
    the fixed string, not the first 300 characters and an ellipsis. *)
Lemma summary_without_model_is_the_fixed_string :
  summary_of None article = "Could not generate summary."
  ∧ summary_of None article
    ≠ PyStr.slice_to 300 (PyStr.slice_to MAX_CHARS (PyStr.strip article)) +:+ "..."
  ∧ PyStr.endswith "..." (summary_of None article) = false.
Proof.
  split; [reflexivity|]. split; [|by vm_compute].
  intros Heq. vm_compute in Heq. discriminate Heq.
Qed.

(** ** The article type *)

Lemma run_analysis_parsed (parse : string → result Doc)
    (classifier : Classifier) (text : string) (doc : Doc) :
  skipped (Some text) = false →
  parse (PyStr.slice_to PARSE_CHARS text) = Ok doc →
  run_analysis (Some parse) classifier (Some text)
  = Ok {| summary := summary_of (Some parse) text;
          entities := entities_of (Some doc);
          article_type := article_type_of classifier text;
          financial_facts := Pandas.drop_duplicates (candidate_facts doc);
          raw_text := None |}.
Proof.
  intros Hs Hparse. unfold run_analysis. rewrite Hs.
  unfold parse_doc. rewrite Hparse. unfold bind.
  by rewrite linker_drop_duplicates.
Qed.

(** C9, as the code has it.  The classifier is given the first 200 (or
    fewer) whitespace-delimited tokens of the whole text, joined by single
    spaces, and the report depends on the classifier through that one call.
    When the prediction raises, the article type is "Classification Failed";
    with a parse at hand the report is returned with its summary, entity map
    and facts as the other stages compute them.  A classifier that cannot be
    loaded ends the process at import: no report is ever built without one. *)
Theorem classification_stage (parse : string → result Doc)
    (classifier : Classifier) (text : string) (doc : Doc) :
  skipped (Some text) = false →
  parse (PyStr.slice_to PARSE_CHARS text) = Ok doc →
  text_for_classification text = PyStr.join " " (take 200 (PyStr.split text))
  ∧ length (take 200 (PyStr.split text)) ≤ 200
  ∧ take 200 (PyStr.split text) `prefix_of` PyStr.split text
  ∧ (∀ classifier' : Classifier,
       classifier' (text_for_classification text)
       = classifier (text_for_classification text) →
       run_analysis (Some parse) classifier' (Some text)
       = run_analysis (Some parse) classifier (Some text))
  ∧ (∀ e, classifier (text_for_classification text) = Raise e →
       run_analysis (Some parse) classifier (Some text)
       = Ok {| summary := summary_of (Some parse) text;
               entities := entities_of (Some doc);
               article_type := "Classification Failed";
               financial_facts := Pandas.drop_duplicates (candidate_facts doc);
               raw_text := None |})
  ∧ (∀ label, label ∈ LABELS → is_Some (entities_of (Some doc) !! label))
  ∧ (∀ load_lg load_sm e text',
       import_then_run load_lg load_sm (Raise e) text' = None).
Proof.
  intros Hs Hparse. split; [reflexivity|]. split; [rewrite length_take; lia|].
  split; [apply prefix_take|]. split; [|split; [|split]].
  - intros classifier' Hc.
    rewrite !(run_analysis_parsed _ _ _ doc) by done.
    unfold article_type_of. by rewrite Hc.
  - intros e He. rewrite (run_analysis_parsed _ _ _ doc) by done.
    unfold article_type_of. by rewrite He.
  - intros label Hl. unfold LABELS in Hl. unfold entities_of, LABELS. simpl.
    repeat match goal with
           | |- context [match ?m with [] => _ | _ :: _ => _ end] => destruct m
           end;
    repeat (apply elem_of_cons in Hl as [->|Hl];
            [rewrite ?lookup_insert_eq, ?lookup_insert_ne by done;
             rewrite ?lookup_insert_eq; eauto|]);
    by apply elem_of_nil in Hl.
  - reflexivity.
Qed.

(** The report of an article whose classification raises. *)
Lemma classification_stage_witness :
  run_analysis (Some parse_microsoft) failing_classifier (Some article)
  = Ok {| summary := "Microsoft reported revenue of $56.5 billion. It also grew.";
          entities := entities_of (Some microsoft_doc);
          article_type := "Classification Failed";
          financial_facts := [fact "Microsoft" "Revenue" "$56.5 billion"];
          raw_text := None |}
  ∧ length (PyStr.split article) = 28.
Proof.
  assert (Hs : skipped (Some article) = false) by (by vm_compute).
  destruct (classification_stage parse_microsoft failing_classifier article
              microsoft_doc Hs eq_refl) as (_ & _ & _ & _ & Hfail & _).
  split; [|by vm_compute].
  rewrite (Hfail (Exception "predict failed") eq_refl).
  by vm_compute.
Defined.

(** C9, as stated, fails for a missing model: when [article_classifier.pkl]
    is not found the import exits, and no report with the label
    "Classification Failed" comes back. *)
Lemma missing_classifier_gives_no_report :
  ¬ ∃ r, import_then_run (Ok parse_microsoft) (Ok parse_microsoft)
           (Raise (FileNotFoundError "article_classifier.pkl")) (Some article)
         = Some (Ok r)
         ∧ article_type r = "Classification Failed".
Proof. intros (r & Hr & _). discriminate Hr. Qed.

(** ** The entity map *)

Lemma common_entities_ranking (mentions : list string) :
  common_entities mentions
  = PyStr.replace_newline <$> take 5 (Counter.ranking mentions).
Proof.
  unfold common_entities, Counter.most_common, Counter.ranking.
  rewrite <- fmap_take, <- list_fmap_compose.
  apply list_fmap_ext. by intros _ [item count] _.
Qed.

Lemma entities_of_lookup (d : Doc) (label : string) :
  label ∈ LABELS →
  entities_of (Some d) !! label = Some (common_entities (label_entities label d)).
Proof.
  assert (Hstep : ∀ (entities : gmap string (list string)) l,
            match label_entities l d with
            | [] => <[l := []]> entities
            | m :: ms => <[l := common_entities (m :: ms)]> entities
            end = <[l := common_entities (label_entities l d)]> entities).
  { intros entities l. by destruct (label_entities l d). }
  intros Hl. unfold entities_of, LABELS in *. simpl.
  rewrite !Hstep.
  repeat (apply elem_of_cons in Hl as [->|Hl];
          [by rewrite ?lookup_insert_eq, ?lookup_insert_ne by done;
              rewrite ?lookup_insert_eq|]).
  by apply elem_of_nil in Hl.
Qed.

Lemma NoDup_take {A} (l : list A) n : NoDup l → NoDup (take n l).
Proof.
  intros Hnd. rewrite <- (take_drop n l) in Hnd.
  by apply NoDup_app in Hnd as [? _].
Qed.

(** C8, as the code has it.  For each of ORG, PERSON and GPE the entity map
    holds the first 5 (or fewer) entries of the ranking of the stripped
    mention strings, each with its newlines replaced by spaces.  The ranking
    lists every distinct mention once, by descending exact-string frequency,
    ties in first-seen order.  The returned strings are distinct when no
    mention holds a newline (the replacement comes after the counting).  A
    category without mentions is mapped to the empty list, and so is every
    category when there is no parse. *)
Theorem entity_aggregation (d : Doc) (label : string) :
  label ∈ LABELS →
  ∃ out,
    entities_of (Some d) !! label = Some out
    ∧ out = PyStr.replace_newline <$> take 5 (Counter.ranking (label_entities label d))
    ∧ length out ≤ 5
    ∧ NoDup (Counter.ranking (label_entities label d))
    ∧ (∀ x, x ∈ Counter.ranking (label_entities label d)
            ↔ x ∈ label_entities label d)
    ∧ StronglySorted (Counter.ranks_before (label_entities label d))
        (Counter.ranking (label_entities label d))
    ∧ (Forall (λ x, PyStr.replace_newline x = x) (label_entities label d) →
       NoDup out)
    ∧ (label_entities label d = [] → out = [])
    ∧ entities_of None !! label = Some [].
Proof.
  intros Hl. eexists. split; [by apply entities_of_lookup|].
  destruct (ranking_spec (label_entities label d)) as (Hnd & Hin & Hs).
  split; [apply common_entities_ranking|].
  split; [rewrite common_entities_ranking, length_fmap, length_take; lia|].
  split; [done|]. split; [done|]. split; [done|].
  split; [|split].
  - intros Hid. rewrite common_entities_ranking.
    assert (Hmap : PyStr.replace_newline <$> take 5 (Counter.ranking (label_entities label d))
                   = take 5 (Counter.ranking (label_entities label d))).
    { rewrite <- (list_fmap_id (take 5 _)) at 2.
      apply list_fmap_ext. intros i x Hx. simpl.
      rewrite Forall_forall in Hid. apply Hid, Hin.
      apply list_elem_of_lookup_2 in Hx. by apply (subseteq_take 5). }
    rewrite Hmap. by apply NoDup_take.
  - intros ->. reflexivity.
  - unfold LABELS in Hl.
    repeat (apply elem_of_cons in Hl as [->|Hl]; [by vm_compute|]).
    by apply elem_of_nil in Hl.
Qed.

(** Six organizations: the five most frequent, ties in first-seen order. *)
Lemma entity_aggregation_witness :
  entities_of (Some six_orgs) !! "ORG"
  = Some ["Apple"; "Nvidia"; "Dell"; "Intel"; "AMD"]
  ∧ NoDup ["Apple"; "Nvidia"; "Dell"; "Intel"; "AMD"]
  ∧ entities_of (Some six_orgs) !! "PERSON" = Some [].
Proof.
  assert (Horg : "ORG" ∈ LABELS) by (by left).
  assert (Hper : "PERSON" ∈ LABELS) by (right; by left).
  destruct (entity_aggregation six_orgs "ORG" Horg)
    as (out & Hlook & Hout & _ & _ & _ & _ & Hnd & _).
  destruct (entity_aggregation six_orgs "PERSON" Hper)
    as (out' & Hlook' & _ & _ & _ & _ & _ & _ & Hnil & _).
  assert (Heq : out = ["Apple"; "Nvidia"; "Dell"; "Intel"; "AMD"]).
  { rewrite Hout. by vm_compute. }
  split; [by rewrite Hlook, Heq|]. split.
  - rewrite <- Heq. apply Hnd. vm_compute. by repeat constructor.
  - rewrite Hlook'. f_equal. by apply Hnil.
Defined.

(** C8, as stated, fails on a mention that is once broken over two lines:
    the two spellings are counted apart and come out as the same string. *)
Lemma wrapped_mention_is_listed_twice :
  ∃ out, entities_of (Some wrapped_mention) !! "ORG" = Some out ∧ ¬ NoDup out.
Proof.
  exists ["Acme Corp"; "Acme Corp"]. split; [by vm_compute|].
  intros [Hnotin _]%NoDup_cons. apply Hnotin. by left.
Qed.

(** ** The financial fact linker *)

Lemma flat_map_filter {A B} (b : A → bool) (g : A → list B) (l : list A) :
  flat_map (λ x, if b x then g x else []) l
  = flat_map g (filter (λ x, b x = true) l).
Proof.
  induction l as [|x l IH]; simpl; [done|].
  rewrite filter_cons. destruct (decide (b x = true)) as [Hb|Hb].
  - rewrite Hb. simpl. by rewrite IH.
  - apply not_true_is_false in Hb. by rewrite Hb.
Qed.

Lemma known_orgs_none (orgs : list string) :
  Forall (λ o, preferred o = false) orgs → known_orgs orgs = [].
Proof.
  unfold known_orgs. induction 1 as [|o orgs Ho _ IH]; [done|].
  rewrite filter_cons, decide_False; [done|]. by rewrite Ho.
Qed.

Lemma filter_preferred_first (before after : list string) (k : string) :
  Forall (λ o, preferred o = false) before → preferred k = true →
  known_orgs (before ++ k :: after) = k :: known_orgs after.
Proof.
  intros Hb Hk. unfold known_orgs. rewrite filter_app, filter_cons.
  rewrite decide_True by done.
  fold (known_orgs before). by rewrite (known_orgs_none before Hb).
Qed.

Lemma elem_of_candidates (d : Doc) pre sent post org f :
  sents d = pre ++ sent :: post →
  truthy (final_org None (pre ++ [sent])) = Some org →
  f ∈ sentence_facts org sent →
  f ∈ Pandas.drop_duplicates (candidate_facts d).
Proof.
  intros Hd Ht Hf. apply elem_of_drop_duplicates.
  unfold candidate_facts. rewrite Hd, (link_loop_at _ _ _ org Ht).
  rewrite !elem_of_app. tauto.
Qed.

(** C7.  On "Microsoft reported revenue of $56.5 billion." (Microsoft an
    ORG) and "It also grew." (no entity) the linker returns the one fact
    (Microsoft, Revenue, $56.5 billion); the second sentence adds no fact and
    leaves Microsoft the active organization. *)
Theorem microsoft_example :
  _heuristic_contextual_linker (Some microsoft_doc)
  = Ok [fact "Microsoft" "Revenue" "$56.5 billion"]
  ∧ link_loop None [microsoft_sentence] = [fact "Microsoft" "Revenue" "$56.5 billion"]
  ∧ final_org None [microsoft_sentence] = Some "Microsoft"
  ∧ sentence_facts "Microsoft" it_also_grew = []
  ∧ final_org None [microsoft_sentence; it_also_grew] = Some "Microsoft".
Proof. by vm_compute. Qed.

(** C6.  The linker always returns a list: the candidate facts with every
    repetition of an earlier one removed.  No two facts of it agree on
    company, metric and value, it holds exactly the candidates, in the order
    of their first occurrences, and it is empty when there is no candidate. *)
Theorem linker_output_is_deduplicated (d : Doc) :
  ∃ out,
    _heuristic_contextual_linker (Some d) = Ok out
    ∧ NoDup out
    ∧ (∀ f g, f ∈ out → g ∈ out →
         Company f = Company g → Metric f = Metric g → Value f = Value g →
         f = g)
    ∧ (∀ f, f ∈ out ↔ f ∈ candidate_facts d)
    ∧ StronglySorted
        (λ f g, Pandas.index_of f (candidate_facts d)
                < Pandas.index_of g (candidate_facts d)) out
    ∧ (candidate_facts d = [] → out = []).
Proof.
  exists (Pandas.drop_duplicates (candidate_facts d)).
  split; [apply linker_drop_duplicates|].
  split; [apply NoDup_drop_from|].
  split; [by intros [] []; simpl; intros _ _ -> -> ->|].
  split; [apply elem_of_drop_duplicates|].
  split; [apply drop_from_sorted|].
  by intros ->.
Qed.

(** No sentence gives no fact; a fact stated twice is returned once. *)
Lemma linker_output_is_deduplicated_witness :
  _heuristic_contextual_linker (Some no_sentences) = Ok []
  ∧ _heuristic_contextual_linker (Some stated_twice)
    = Ok [fact "Microsoft" "Revenue" "$56.5 billion"]
  ∧ candidate_facts stated_twice
    = [fact "Microsoft" "Revenue" "$56.5 billion";
       fact "Microsoft" "Revenue" "$56.5 billion"].
Proof.
  destruct (linker_output_is_deduplicated no_sentences)
    as (out & Hout & _ & _ & _ & _ & Hnil).
  split; [|by vm_compute].
  rewrite Hout. f_equal. by apply Hnil.
Defined.

Lemma sentence_facts_by_metric (org : string) (sent : Sent) :
  sentence_facts org sent
  = flat_map
      (λ m, (λ value, {| Company := org; Metric := m.1;
                         Value := PyStr.strip value |})
            <$> filter (λ value, 2 < PyStr.len value)
                  (Re.findall (pattern m.2) (sent_text sent) true))
      (filter (λ m, keyword_hit m.2 sent = true) FINANCIAL_METRICS).
Proof.
  unfold sentence_facts. rewrite <- flat_map_filter.
  apply flat_map_ext. by intros [name details].
Qed.

(** C4, as stated, fails on "$5 today": the match is "$5 " (3 characters),
    so the fact is emitted, yet its trimmed text "$5" has 2 characters. *)
Lemma short_trimmed_value_is_emitted :
  Re.findall amount_pattern (sent_text five_dollars) true = ["$5 "]
  ∧ PyStr.len (PyStr.strip "$5 ") = 2
  ∧ _heuristic_contextual_linker
      (Some {| sents := [five_dollars]; ents := sent_ents five_dollars |})
    = Ok [fact "Apple" "Revenue" "$5"]
  ∧ ¬ (∀ value,
         value ∈ Re.findall amount_pattern (sent_text five_dollars) true →
         (fact "Apple" "Revenue" (PyStr.strip value)
            ∈ sentence_facts "Apple" five_dollars
          ↔ 2 < PyStr.len (PyStr.strip value))).
Proof.
  split; [by vm_compute|]. split; [by vm_compute|]. split; [by vm_compute|].
  intros Hclaim. specialize (Hclaim "$5 ").
  assert (Hin : "$5 " ∈ Re.findall amount_pattern (sent_text five_dollars) true)
    by (vm_compute; by left).
  apply Hclaim in Hin. destruct Hin as [Hlen _].
  assert (Hlt : 2 < PyStr.len (PyStr.strip "$5 ")).
  { apply Hlen. vm_compute. by left. }
  vm_compute in Hlt. lia.
Qed.

(** * Further properties *)

(** ** Loading the models *)

(** X1.  What the import leaves in [nlp]: the large model when it loads, the
    small one when the large load fails with an [OSError] and the small load
    works, and [None] otherwise; a large load that fails with any other
    exception is not followed by a try of the small one.  The process
    survives the import exactly when the classifier loads. *)
Theorem load_models_outcome (load_lg load_sm : result (string → result Doc))
    (load_pkl : result Classifier) :
  (∀ m, load_nlp load_lg load_sm = Some m ↔
        load_lg = Ok m
        ∨ ∃ e, load_lg = Raise e ∧ is_OSError e = true ∧ load_sm = Ok m)
  ∧ (∀ e, load_lg = Raise e → is_OSError e = false →
          load_nlp load_lg load_sm = None)
  ∧ (load_models load_lg load_sm load_pkl = Exited ↔ ∃ e, load_pkl = Raise e)
  ∧ (∀ classifier, load_pkl = Ok classifier →
       load_models load_lg load_sm load_pkl
       = Loaded (load_nlp load_lg load_sm) classifier).
Proof.
  split; [|split; [|split]].
  - intros m. unfold load_nlp, try_except, bind.
    destruct load_lg as [lg|e]; [|destruct (is_OSError e) eqn:He;
                                   [destruct load_sm as [sm|e']|]].
    + split; [intros [= ->]; by left|].
      intros [[= ->]|(e & [=] & _)]. done.
    + split; [intros [= ->]; right; by exists e|].
      intros [[=]|(e0 & _ & _ & [= ->])]. done.
    + split; [done|]. intros [[=]|(e0 & _ & _ & [=])].
    + split; [done|]. intros [[=]|(e0 & [= <-] & He0 & _)]. congruence.
  - intros e -> He. unfold load_nlp, try_except. by rewrite He.
  - unfold load_models. destruct load_pkl as [c|e].
    + split; [done|]. by intros (e & [=]).
    + split; [by exists e|done].
  - by intros classifier ->.
Qed.

Lemma load_models_outcome_witness :
  load_nlp (Raise (Exception "out of memory")) (Ok parse_microsoft) = None
  ∧ load_models (Ok parse_microsoft) (Ok parse_microsoft) (Ok news_classifier)
    = Loaded (Some parse_microsoft) news_classifier.
Proof.
  destruct (load_models_outcome (Raise (Exception "out of memory"))
              (Ok parse_microsoft) (Ok news_classifier)) as (_ & Hother & _).
  destruct (load_models_outcome (Ok parse_microsoft) (Ok parse_microsoft)
              (Ok news_classifier)) as (_ & _ & _ & Hloaded).
  split.
  - by apply (Hother (Exception "out of memory")).
  - by rewrite (Hloaded news_classifier eq_refl).
Defined.

(** ** When [run_analysis] raises *)

(** X2.  [run_analysis] raises in two situations only, both on a text that
    passes the guard: without a spaCy model (the [AttributeError] of the
    linker), and when the parse of [text[:50000]] raises, whose exception it
    passes on although the summary stage has caught the same failure.  A
    failing classifier never makes it raise. *)
Theorem run_analysis_raises_iff (nlp : Nlp) (classifier : Classifier)
    (text : option string) (e : exn) :
  run_analysis nlp classifier text = Raise e ↔
  ∃ t, text = Some t ∧ skipped text = false
       ∧ ((nlp = None
           ∧ e = AttributeError "'NoneType' object has no attribute 'sents'")
          ∨ ∃ parse, nlp = Some parse
                     ∧ parse (PyStr.slice_to PARSE_CHARS t) = Raise e).
Proof.
  destruct text as [t|]; [|split; [done|by intros (t & [=] & _)]].
  destruct (skipped (Some t)) eqn:Hs.
  - unfold run_analysis. rewrite Hs. split; [done|].
    intros (t' & _ & [=] & _).
  - destruct nlp as [parse|].
    + destruct (parse (PyStr.slice_to PARSE_CHARS t)) as [doc|e'] eqn:Hp.
      * rewrite (run_analysis_parsed _ _ _ doc Hs Hp). split; [done|].
        intros (t' & [= <-] & _ & [[[=] _]|(parse' & [= <-] & Hp')]).
        congruence.
      * assert (Hrun : run_analysis (Some parse) classifier (Some t) = Raise e').
        { unfold run_analysis. rewrite Hs. unfold parse_doc. by rewrite Hp. }
        rewrite Hrun. split.
        -- intros [= ->]. exists t. split; [done|]. split; [done|].
           right. by exists parse.
        -- intros (t' & [= <-] & _ & [[[=] _]|(parse' & [= <-] & Hp')]).
           congruence.
    + rewrite run_analysis_without_nlp by done. split.
      * intros [= <-]. exists t. split; [done|]. split; [done|]. by left.
      * intros (t' & _ & _ & [[_ ->]|(parse & [=] & _)]). done.
Qed.

(** ** Scraping, then analysing *)

Lemma skipped_Error (t : string) :
  PyStr.startswith "Error:" t = true → skipped (Some t) = true.
Proof. intros Hp. unfold skipped. rewrite Hp. by rewrite orb_true_r. Qed.

Lemma run_analysis_skipped nlp classifier (text : option string) :
  skipped text = true →
  run_analysis nlp classifier text = Ok (skipped_report text).
Proof. intros Hs. unfold run_analysis. destruct text; [|done]. by rewrite Hs. Qed.

(** X3.  The text that [get_article_text] returns for a page it could not
    fetch or parse is always recognized by the guard of [run_analysis]: with
    any exception message and any models the analysis is skipped, and the
    route shows the skipped report under the heading "Scrape Failed" or
    "Parse Failed", without a facts table. *)
Theorem scrape_failure_is_skipped (web : string → Scrape.Fetched) (nlp : Nlp)
    (classifier : Classifier) (to_html : list Fact → string)
    (url e : string) :
  web url = Scrape.RequestException e ∨ web url = Scrape.OtherException e →
  let data := Scrape.get_article_text (web url) in
  PyStr.startswith "Error:" (Scrape.text data) = true
  ∧ run_analysis nlp classifier (Some (Scrape.text data))
    = Ok (skipped_report (Some (Scrape.text data)))
  ∧ App.process_url web nlp classifier to_html url
    = {| App.report := skipped_report (Some (Scrape.text data));
         App.url := url;
         App.heading := Scrape.heading data;
         App.financial_facts_table := None |}
  ∧ (Scrape.heading data = "Scrape Failed" ∨ Scrape.heading data = "Parse Failed").
Proof.
  intros Hweb data.
  assert (Hp : PyStr.startswith "Error:" (Scrape.text data) = true).
  { unfold data. by destruct Hweb as [-> | ->]. }
  assert (Hrun : run_analysis nlp classifier (Some (Scrape.text data))
                 = Ok (skipped_report (Some (Scrape.text data)))).
  { by apply run_analysis_skipped, skipped_Error. }
  split; [done|]. split; [done|]. split.
  - unfold App.process_url. fold data. by rewrite Hrun.
  - unfold data. destruct Hweb as [-> | ->]; [by left|by right].
Qed.

Lemma scrape_failure_is_skipped_witness :
  App.process_url (λ _, Scrape.RequestException "404 Client Error")
    None failing_classifier (λ _, "<table>") "https://example.com/a"
  = {| App.report :=
         {| summary := "N/A - Could not process article text.";
            entities := ∅;
            article_type := "N/A";
            financial_facts := [];
            raw_text :=
              Some "Error: Could not retrieve article. 404 Client Error..." |};
       App.url := "https://example.com/a";
       App.heading := "Scrape Failed";
       App.financial_facts_table := None |}.
Proof.
  destruct (scrape_failure_is_skipped (λ _, Scrape.RequestException "404 Client Error")
              None failing_classifier (λ _, "<table>") "https://example.com/a"
              "404 Client Error" (or_introl eq_refl)) as (_ & _ & Hroute & _).
  rewrite Hroute. reflexivity.
Defined.

(** ** The route [/analyze] *)

(** X4.  Whatever happens while a URL is processed, the route yields one
    entry for it: the report of [run_analysis] with the scraped heading, or,
    when [run_analysis] raises, the error report, whose summary carries the
    message of the exception, whose article type and heading are
    "Analysis Failed" and whose entity map and fact list are empty. *)
Theorem process_url_outcome (web : string → Scrape.Fetched) (nlp : Nlp)
    (classifier : Classifier) (to_html : list Fact → string) (url : string) :
  let data := Scrape.get_article_text (web url) in
  App.url (App.process_url web nlp classifier to_html url) = url
  ∧ (∀ r, run_analysis nlp classifier (Some (Scrape.text data)) = Ok r →
       App.report (App.process_url web nlp classifier to_html url) = r
       ∧ App.heading (App.process_url web nlp classifier to_html url)
         = Scrape.heading data)
  ∧ (∀ e, run_analysis nlp classifier (Some (Scrape.text data)) = Raise e →
       App.process_url web nlp classifier to_html url
       = {| App.report :=
              {| summary := "A critical error occurred during analysis: "
                            +:+ App.str e;
                 entities := ∅;
                 article_type := "Analysis Failed";
                 financial_facts := [];
                 raw_text := None |};
            App.url := url;
            App.heading := "Analysis Failed";
            App.financial_facts_table := None |})
  ∧ (App.financial_facts_table (App.process_url web nlp classifier to_html url) = None
     ↔ financial_facts (App.report (App.process_url web nlp classifier to_html url)) = []).
Proof.
  intros data. unfold App.process_url. fold data.
  destruct (run_analysis nlp classifier (Some (Scrape.text data))) as [r|e];
    simpl.
  - split; [done|]. split; [by intros ? [= <-]|]. split; [done|].
    by destruct (financial_facts r).
  - split; [done|]. split; [done|]. split; [by intros ? [= <-]|]. done.
Qed.

Lemma process_url_outcome_witness :
  App.process_url
    (λ _, Scrape.Parsed {| Scrape.h1 := Some "Results"; Scrape.article := Some article;
                           Scrape.main := None; Scrape.body := None;
                           Scrape.soup_text := "" |})
    None news_classifier (λ _, "<table>") "https://example.com/a"
  = {| App.report :=
         {| summary := "A critical error occurred during analysis: 'NoneType' object has no attribute 'sents'";
            entities := ∅;
            article_type := "Analysis Failed";
            financial_facts := [];
            raw_text := None |};
       App.url := "https://example.com/a";
       App.heading := "Analysis Failed";
       App.financial_facts_table := None |}.
Proof.
  destruct (process_url_outcome
              (λ _, Scrape.Parsed {| Scrape.h1 := Some "Results";
                                     Scrape.article := Some article;
                                     Scrape.main := None; Scrape.body := None;
                                     Scrape.soup_text := "" |})
              None news_classifier (λ _, "<table>") "https://example.com/a")
    as (_ & _ & Herr & _).
  rewrite (Herr (AttributeError "'NoneType' object has no attribute 'sents'")).
  - reflexivity.
  - by vm_compute.
Defined.

Lemma run_analysis_raises_iff_witness :
  run_analysis (Some (λ _, Raise (Exception "parse failed"))) news_classifier
    (Some article)
  = Raise (Exception "parse failed").
Proof.
  apply (proj2 (run_analysis_raises_iff _ _ _ _)).
  exists article. split; [reflexivity|]. split; [by vm_compute|].
  right. eexists. split; reflexivity.
Defined.

(** ** [is_url] *)

Lemma append_cons (x : ascii) (a b : string) :
  String x a +:+ b = String x (a +:+ b).
Proof. reflexivity. Qed.

Lemma append_assoc (a b c : string) : (a +:+ b) +:+ c = a +:+ (b +:+ c).
Proof. induction a as [|x a IH]; [done|]. rewrite !append_cons. by f_equal. Qed.

Lemma append_nil_r (a : string) : a +:+ "" = a.
Proof. induction a as [|x a IH]; [done|]. rewrite append_cons. by f_equal. Qed.

Lemma lit_exact_inv (p s : string) (k : string → option string) rest :
  Re.lit false p s k = Some rest → ∃ s', s = p +:+ s' ∧ k s' = Some rest.
Proof.
  revert s. induction p as [|a p IH]; intros s; simpl.
  - intros Hk. by exists s.
  - destruct s as [|b s]; [done|]. unfold Re.char_eq.
    destruct (Ascii.eqb a b) eqn:Hab; [|done].
    apply Ascii.eqb_eq in Hab as ->.
    intros (s' & -> & Hk)%IH. exists s'. by rewrite append_cons.
Qed.

Lemma lit_exact_append (p s' : string) (k : string → option string) :
  Re.lit false p (p +:+ s') k = k s'.
Proof.
  induction p as [|a p IH]; [done|]. rewrite append_cons. simpl.
  unfold Re.char_eq. by rewrite Ascii.eqb_refl.
Qed.

Lemma star_not_in_Some (cls : list Re.citem) (s : string) :
  is_Some (ReMore.star_not_in cls s Some).
Proof.
  induction s as [|c s IH]; simpl; [done|].
  destruct (Re.in_class cls c); [done|].
  by destruct (ReMore.star_not_in cls s Some).
Qed.

Lemma url_scheme_http (s' : string) (k : string → option string) :
  Re.run false App.url_scheme ("http://" +:+ s') k = k s'.
Proof.
  unfold App.url_scheme. cbn [Re.run].
  change ("http://" +:+ s') with ("http" +:+ ("://" +:+ s')).
  rewrite lit_exact_append, (lit_exact_append "://").
  by replace (Re.lit false "s" ("://" +:+ s') (λ s0, Re.lit false "://" s0 k))
    with (@None string) by reflexivity.
Qed.

Lemma url_scheme_https (s' : string) (k : string → option string) :
  Re.run false App.url_scheme ("https://" +:+ s') k = k s'.
Proof.
  unfold App.url_scheme. cbn [Re.run].
  change ("https://" +:+ s') with ("http" +:+ ("s" +:+ ("://" +:+ s'))).
  rewrite lit_exact_append, (lit_exact_append "s"), (lit_exact_append "://").
  by destruct (k s').
Qed.

Lemma host_start_class (c : ascii) :
  Re.in_class [Re.Space; Re.Char "/"; Re.Char "$"; Re.Char "."; Re.Char "?";
               Re.Char "#"] c = false ↔ App.host_start c.
Proof.
  unfold App.host_start, Re.in_class. simpl.
  rewrite !orb_false_iff, !Ascii.eqb_neq. tauto.
Qed.

(** X5.  [is_url] accepts exactly the strings that begin with "http://" or
    "https://" followed by a character that is neither whitespace nor one of
    / $ . ? # and by one more character that is not a newline; what comes
    after that, whitespace included, is not looked at.  A query that is not
    accepted gives no report and is never scraped; an accepted one gives the
    one report of that URL. *)
Theorem is_url_accepts (query : string) :
  (App.is_url query = true ↔
   ∃ c1 c2 rest,
     (query = "http://" +:+ String c1 (String c2 rest)
      ∨ query = "https://" +:+ String c1 (String c2 rest))
     ∧ App.host_start c1 ∧ PyStr.code c2 ≠ 10)
  ∧ (App.is_url query = true → ∀ tail, App.is_url (query +:+ tail) = true)
  ∧ (∀ web nlp classifier to_html,
       App.analyze web nlp classifier to_html query
       = if App.is_url query
         then [App.process_url web nlp classifier to_html query] else []).
Proof.
  set (K := λ s1 : string,
         ReMore.not_in [Re.Space; Re.Char "/"; Re.Char "$"; Re.Char ".";
                        Re.Char "?"; Re.Char "#"] s1 (λ s2,
           ReMore.dot s2 (λ s3, ReMore.star_not_in [Re.Space] s3 Some))).
  assert (HK : ∀ s, is_Some (K s) ↔
            ∃ c1 c2 rest, s = String c1 (String c2 rest)
                          ∧ App.host_start c1 ∧ PyStr.code c2 ≠ 10).
  { intros s. unfold K, ReMore.not_in, ReMore.dot.
    destruct s as [|c1 [|c2 rest]].
    - split; [by intros [? [=]]|]. by intros (? & ? & ? & [=] & _).
    - destruct (Re.in_class _ c1); (split; [by intros [? [=]]|]);
        by intros (? & ? & ? & [=] & _).
    - destruct (Re.in_class _ c1) eqn:Hc1.
      + split; [by intros [? [=]]|].
        intros (? & ? & ? & [= <- <- <-] & Hh & _).
        apply host_start_class in Hh. congruence.
      + destruct (PyStr.code c2 =? 10) eqn:Hc2.
        * split; [by intros [? [=]]|].
          intros (? & ? & ? & [= <- <- <-] & _ & Hn).
          apply Nat.eqb_eq in Hc2. done.
        * split; [|intros _; apply star_not_in_Some].
          intros _. exists c1, c2, rest. split; [done|].
          split; [by apply host_start_class|]. by apply Nat.eqb_neq. }
  assert (Hrun : ∀ s, App.is_url s = true ↔
            ∃ s', (s = "http://" +:+ s' ∨ s = "https://" +:+ s') ∧ is_Some (K s')).
  { intros s. unfold App.is_url. fold K.
    destruct (Re.run false App.url_scheme s K) as [r|] eqn:Hr.
    - split; [intros _|done]. unfold App.url_scheme in Hr. cbn [Re.run] in Hr.
      apply lit_exact_inv in Hr as (s1 & -> & Hr).
      destruct (Re.lit false "s" s1 (λ s0, Re.lit false "://" s0 K)) as [r'|] eqn:Hs.
      + injection Hr as ->.
        apply lit_exact_inv in Hs as (s2 & -> & Hs).
        apply lit_exact_inv in Hs as (s3 & -> & Hs).
        exists s3. split; [by right|]. by rewrite Hs.
      + apply lit_exact_inv in Hr as (s3 & -> & Hr).
        exists s3. split; [by left|]. by rewrite Hr.
    - split; [done|]. intros (s' & Hs & [r Hk]). exfalso.
      destruct Hs as [-> | ->];
        rewrite ?url_scheme_http, ?url_scheme_https in Hr; congruence. }
  split; [|split].
  - rewrite Hrun. split.
    + intros (s' & Hs & (c1 & c2 & rest & -> & Hh)%HK).
      by exists c1, c2, rest.
    + intros (c1 & c2 & rest & Hs & Hh). eexists. split; [exact Hs|].
      apply HK. by exists c1, c2, rest.
  - intros (s' & Hs & (c1 & c2 & rest & -> & Hh)%HK)%Hrun tail.
    apply Hrun. exists (String c1 (String c2 (rest +:+ tail))). split.
    + destruct Hs as [-> | ->]; [by left|by right].
    + apply HK. by exists c1, c2, (rest +:+ tail).
  - intros web nlp classifier to_html. unfold App.analyze.
    by destruct (App.is_url query).
Qed.

Lemma is_url_accepts_witness :
  App.is_url "https://example.com/news today" = true
  ∧ App.is_url "example.com" = false
  ∧ App.analyze (λ _, Scrape.RequestException "timeout") None news_classifier
      (λ _, "<table>") "example.com" = [].
Proof.
  destruct (is_url_accepts "https://ex") as (Hiff & Hext & _).
  destruct (is_url_accepts "example.com") as (_ & _ & Hroute).
  split; [|split].
  - change "https://example.com/news today"
      with ("https://ex" +:+ "ample.com/news today").
    apply Hext, Hiff. exists "e"%char, "x"%char, "".
    split; [by right|]. split; [|by vm_compute].
    unfold App.host_start. repeat split; (by vm_compute) || discriminate.
  - reflexivity.
  - by rewrite Hroute.
Defined.

(** ** What a match is *)

Lemma len_cons (c : ascii) (s : string) : PyStr.len (String c s) = S (PyStr.len s).
Proof. reflexivity. Qed.

Lemma slice_to_append (a b : string) :
  PyStr.slice_to (PyStr.len (a +:+ b) - PyStr.len b) (a +:+ b) = a.
Proof.
  rewrite len_append. replace (PyStr.len a + PyStr.len b - PyStr.len b)
    with (PyStr.len a) by lia.
  induction a as [|x a IH]; [by destruct b|].
  rewrite append_cons, len_cons. simpl. by rewrite IH.
Qed.

Lemma append_inv_tail (a a' b : string) : a +:+ b = a' +:+ b → a = a'.
Proof.
  intros Heq.
  rewrite <- (slice_to_append a b), <- (slice_to_append a' b). by rewrite Heq.
Qed.

Lemma startswith_append (p r : string) : PyStr.startswith p (p +:+ r) = true.
Proof.
  induction p as [|x p IH]; [done|].
  rewrite append_cons. simpl. by rewrite Ascii.eqb_refl.
Qed.

Lemma startswith_inv (p s : string) :
  PyStr.startswith p s = true → ∃ r, s = p +:+ r.
Proof.
  revert s. induction p as [|x p IH]; intros s; simpl; [by exists s|].
  destruct s as [|y s]; [done|].
  intros [Hxy Hp]%andb_true_iff. apply Ascii.eqb_eq in Hxy as ->.
  destruct (IH s Hp) as (r & ->). by exists r.
Qed.

Lemma contains_middle (a sub b : string) :
  PyStr.contains sub (a +:+ sub +:+ b) = true.
Proof.
  induction a as [|x a IH].
  - change ("" +:+ sub +:+ b) with (sub +:+ b).
    destruct sub; simpl; [by destruct b|].
    rewrite Ascii.eqb_refl. by rewrite startswith_append.
  - rewrite append_cons. simpl. rewrite IH. apply orb_true_r.
Qed.

Lemma contains_inv (sub s : string) :
  PyStr.contains sub s = true → ∃ a b, s = a +:+ sub +:+ b.
Proof.
  induction s as [|x s IH]; simpl.
  - rewrite orb_false_r. intros (r & ->)%startswith_inv. by exists "", r.
  - intros [(r & ->)%startswith_inv|Hc]%orb_true_iff; [by exists "", r|].
    destruct (IH Hc) as (a & b & ->). by exists (String x a), b.
Qed.




Lemma rstrip_keeps_head (c : ascii) (s : string) :
  PyStr.isspace c = false → ∃ r, PyStr.rstrip (String c s) = String c r.
Proof.
  intros Hc. simpl. destruct (PyStr.rstrip s) as [|y r].
  - rewrite Hc. by exists "".
  - by exists (String y r).
Qed.

Section MatchFacts.
Variable ignorecase : bool.

Lemma lit_inv (p s : string) (k : string → option string) rest :
  Re.lit ignorecase p s k = Some rest →
  ∃ m s', s = m +:+ s' ∧ PyStr.len m = PyStr.len p ∧ k s' = Some rest.
Proof.
  revert s. induction p as [|a p IH]; intros s; simpl.
  - intros Hk. by exists "", s.
  - destruct s as [|b s]; [done|].
    destruct (Re.char_eq ignorecase a b); [|done].
    intros (m & s' & -> & Hlen & Hk)%IH.
    exists (String b m), s'. rewrite len_cons, Hlen. done.
Qed.

Lemma star_inv (cls : list Re.citem) (s : string)
    (k : string → option string) rest :
  Re.star cls s k = Some rest → ∃ m s', s = m +:+ s' ∧ k s' = Some rest.
Proof.
  induction s as [|c s IH]; simpl.
  - intros Hk. by exists "", "".
  - destruct (Re.in_class cls c); [|intros Hk; by exists "", (String c s)].
    destruct (Re.star cls s k) as [r|] eqn:Hs.
    + intros [= ->]. destruct (IH eq_refl) as (m & s' & -> & Hk).
      by exists (String c m), s'.
    + intros Hk. by exists "", (String c s).
Qed.

(** A successful run has consumed a prefix and handed the rest to [k]. *)
Lemma run_inv (r : Re.regex) (s : string) (k : string → option string) rest :
  Re.run ignorecase r s k = Some rest →
  ∃ m s', s = m +:+ s' ∧ k s' = Some rest.
Proof.
  revert s k. induction r as [p|cls|cls|cls|r1 IH1 r2 IH2|r1 IH1 r2 IH2|r1 IH1];
    intros s k; cbn [Re.run].
  - intros (m & s' & ? & _ & ?)%lit_inv. by exists m, s'.
  - destruct s as [|c s]; [done|]. destruct (Re.in_class cls c); [|done].
    intros Hk. by exists (String c ""), s.
  - destruct s as [|c s]; [done|]. destruct (Re.in_class cls c); [|done].
    intros (m & s' & -> & Hk)%star_inv. by exists (String c m), s'.
  - apply star_inv.
  - intros (m1 & s1 & -> & (m2 & s2 & -> & Hk)%IH2)%IH1.
    exists (m1 +:+ m2), s2. by rewrite append_assoc.
  - destruct (Re.run ignorecase r1 s k) as [r|] eqn:H1.
    + intros [= ->]. by apply IH1.
    + apply IH2.
  - destruct (Re.run ignorecase r1 s k) as [r|] eqn:H1.
    + intros [= ->]. by apply IH1.
    + intros Hk. by exists "", s.
Qed.

Lemma match_at_inv (r : Re.regex) (s m : string) :
  Re.match_at ignorecase r s = Some m → ∃ rest, s = m +:+ rest.
Proof.
  unfold Re.match_at.
  destruct (Re.run ignorecase r s Some) as [rest|] eqn:Hrun; [|done].
  apply run_inv in Hrun as (m' & s' & -> & [= ->]).
  rewrite slice_to_append. intros [= <-]. by exists rest.
Qed.

(** Every text that [findall] returns is a match at some place of [s]. *)
Lemma scan_inv (r : Re.regex) (skip : nat) (s m : string) :
  m ∈ Re.scan ignorecase r skip s →
  ∃ a b, s = a +:+ m +:+ b ∧ Re.match_at ignorecase r (m +:+ b) = Some m.
Proof.
  revert skip. induction s as [|c s IH]; intros skip; simpl.
  - by intros ?%elem_of_nil.
  - assert (Hrec : ∀ n, m ∈ Re.scan ignorecase r n s →
              ∃ a b, String c s = a +:+ m +:+ b
                     ∧ Re.match_at ignorecase r (m +:+ b) = Some m).
    { intros n (a & b & -> & Hm)%IH. by exists (String c a), b. }
    destruct skip as [|n]; [|apply Hrec].
    destruct (Re.match_at ignorecase r (String c s)) as [m'|] eqn:Hm;
      [|apply Hrec].
    intros [->|Hin]%elem_of_cons; [|by eapply Hrec].
    destruct (match_at_inv _ _ _ Hm) as (rest & Hs).
    exists "", rest. split; [done|]. by rewrite <- Hs.
Qed.

End MatchFacts.

(** ** Where a fact comes from *)

Lemma dollar_only (b : ascii) : Re.char_eq true "$" b = true → b = "$"%char.
Proof.
  destruct b as [[] [] [] [] [] [] [] []]; vm_compute; intros H;
    (discriminate H || reflexivity).
Qed.

Lemma match_at_dollar (r' : Re.regex) (s m : string) :
  Re.match_at true (Re.Seq (Re.Lit "$") r') s = Some m →
  ∃ m', m = String "$" m'.
Proof.
  unfold Re.match_at. cbn [Re.run].
  destruct (Re.lit true "$" s (λ s', Re.run true r' s' Some)) as [rest|] eqn:Hl;
    [|done].
  destruct s as [|b s]; [done|]. cbn [Re.lit] in Hl.
  destruct (Re.char_eq true "$" b) eqn:Hb; [|done].
  apply dollar_only in Hb as ->.
  apply run_inv in Hl as (m2 & s' & -> & [= ->]).
  change (String "$" (m2 +:+ rest)) with (String "$" m2 +:+ rest).
  rewrite slice_to_append. intros [= <-]. by exists m2.
Qed.

Lemma metric_pattern_dollar (name : string) (details : MetricSpec) :
  (name, details) ∈ FINANCIAL_METRICS →
  ∃ r', pattern details = Re.Seq (Re.Lit "$") r'.
Proof.
  unfold FINANCIAL_METRICS. intros Hin.
  repeat (apply elem_of_cons in Hin as [[= _ ->]|Hin]; [by eexists|]).
  by apply elem_of_nil in Hin.
Qed.

Lemma strip_dollar (m' : string) : ∃ r, PyStr.strip (String "$" m') = String "$" r.
Proof. unfold PyStr.strip. simpl PyStr.lstrip. by apply rstrip_keeps_head. Qed.




(** A candidate belongs to one sentence, under the organization active
    there. *)
Lemma elem_of_link_loop (cur : option string) (sentences : list Sent) (f : Fact) :
  f ∈ link_loop cur sentences →
  ∃ pre sent post org,
    sentences = pre ++ sent :: post
    ∧ truthy (final_org cur (pre ++ [sent])) = Some org
    ∧ f ∈ sentence_facts org sent.
Proof.
  revert cur. induction sentences as [|sent rest IH]; intros cur; simpl.
  - by intros ?%elem_of_nil.
  - assert (Hrec : f ∈ link_loop (next_org cur sent) rest →
              ∃ pre s post org,
                sent :: rest = pre ++ s :: post
                ∧ truthy (final_org cur (pre ++ [s])) = Some org
                ∧ f ∈ sentence_facts org s).
    { intros (pre & s & post & org & -> & Ht & Hf)%IH.
      by exists (sent :: pre), s, post, org. }
    destruct (truthy (next_org cur sent)) as [org|] eqn:Ht; [|done].
    intros [Hf|Hf]%elem_of_app; [|by apply Hrec].
    by exists [], sent, rest, org.
Qed.






(** ** What the linker reads *)

Lemma sentence_facts_text (org : string) (sent sent' : Sent) :
  sent_text sent = sent_text sent' →
  sentence_facts org sent = sentence_facts org sent'.
Proof.
  intros Ht. unfold sentence_facts, metric_facts, keyword_hit. by rewrite Ht.
Qed.

Lemma link_loop_text_and_orgs (cur : option string) (l l' : list Sent) :
  Forall2 (λ s s', sent_text s = sent_text s' ∧ sent_orgs s = sent_orgs s') l l' →
  link_loop cur l = link_loop cur l'.
Proof.
  intros H. revert cur. induction H as [|s s' l l' [Ht Ho] _ IH]; intros cur;
    simpl; [done|].
  assert (Hn : next_org cur s = next_org cur s').
  { unfold next_org. by rewrite Ho. }
  rewrite Hn, IH. destruct (truthy (next_org cur s')) as [org|]; [|done].
  by rewrite (sentence_facts_text org s s' Ht).
Qed.

(** X8.  The linker reads a document only through the text and the ORG
    mentions of its sentences: entities of other labels and [doc.ents] never
    change the facts. *)
Theorem linker_reads_text_and_orgs (d d' : Doc) :
  Forall2 (λ s s', sent_text s = sent_text s' ∧ sent_orgs s = sent_orgs s')
    (sents d) (sents d') →
  _heuristic_contextual_linker (Some d) = _heuristic_contextual_linker (Some d').
Proof.
  intros H. rewrite !linker_drop_duplicates. unfold candidate_facts.
  by rewrite (link_loop_text_and_orgs None _ _ H).
Qed.

Lemma linker_reads_text_and_orgs_witness :
  _heuristic_contextual_linker
    (Some {| sents := [ {| sent_text := sent_text microsoft_sentence;
                           sent_ents := [ {| ent_text := "$56.5 billion";
                                             label_ := "MONEY" |};
                                          org "Microsoft" ] |};
                        it_also_grew ];
             ents := [] |})
  = Ok [fact "Microsoft" "Revenue" "$56.5 billion"].
Proof.
  rewrite <- (linker_reads_text_and_orgs microsoft_doc).
  - by vm_compute.
  - by repeat constructor.
Defined.

(** ** The keys and the strings of the entity map *)

Lemma entities_of_inserts (d : Doc) :
  entities_of (Some d)
  = <["GPE" := common_entities (label_entities "GPE" d)]>
      (<["PERSON" := common_entities (label_entities "PERSON" d)]>
         (<["ORG" := common_entities (label_entities "ORG" d)]> ∅)).
Proof.
  unfold entities_of, LABELS. simpl.
  by destruct (label_entities "ORG" d), (label_entities "PERSON" d),
    (label_entities "GPE" d).
Qed.

Lemma replaced_char_no_newline (c : ascii) :
  Ascii.eqb (ascii_of_nat 10) (if PyStr.code c =? 10 then " "%char else c) = false.
Proof. by destruct c as [[] [] [] [] [] [] [] []]. Qed.

Lemma replace_newline_no_newline (s : string) :
  PyStr.contains newline (PyStr.replace_newline s) = false.
Proof.
  unfold PyStr.replace_newline, newline.
  induction s as [|c s IH]; [done|].
  cbn [PyStr.map_chars PyStr.contains PyStr.startswith].
  by rewrite IH, replaced_char_no_newline.
Qed.

Lemma elem_of_common_entities (label : string) (d : Doc) (x : string) :
  x ∈ common_entities (label_entities label d) →
  ∃ ent, ent ∈ ents d ∧ label_ ent = label
         ∧ x = PyStr.replace_newline (PyStr.strip (ent_text ent)).
Proof.
  rewrite common_entities_ranking.
  intros (y & -> & Hy)%list_elem_of_fmap.
  apply (subseteq_take 5) in Hy.
  apply (proj1 (proj1 (proj2 (ranking_spec _)) y)) in Hy.
  unfold label_entities in Hy.
  apply list_elem_of_fmap in Hy as (ent & -> & [Hl He]%list_elem_of_filter).
  by exists ent.
Qed.

Lemma entities_of_key (doc : option Doc) (label : string) (out : list string) :
  entities_of doc !! label = Some out →
  label ∈ LABELS
  ∧ (out = [] ∨ ∃ d, doc = Some d ∧ out = common_entities (label_entities label d)).
Proof.
  destruct doc as [d|].
  - rewrite entities_of_inserts. unfold LABELS.
    rewrite !lookup_insert_Some, lookup_empty.
    intros [[<- <-]|[_ [[<- <-]|[_ [[<- <-]|[_ [=]]]]]]].
    all: split; [set_solver|right; by exists d].
  - simpl. unfold LABELS. rewrite !lookup_insert_Some, lookup_empty.
    intros [[<- <-]|[_ [[<- <-]|[_ [[<- <-]|[_ [=]]]]]]].
    all: split; [set_solver|by left].
Qed.

(** X9.  The entity map has no key besides ORG, PERSON and GPE, and every
    string in it is free of newlines and is the stripped text, newlines
    replaced, of an entity of the document that carries the key as its
    label. *)
Theorem entity_map_contents (doc : option Doc) (label : string)
    (out : list string) :
  entities_of doc !! label = Some out →
  label ∈ LABELS
  ∧ ∀ x, x ∈ out →
      PyStr.contains newline x = false
      ∧ ∃ d ent, doc = Some d ∧ ent ∈ ents d ∧ label_ ent = label
                 ∧ x = PyStr.replace_newline (PyStr.strip (ent_text ent)).
Proof.
  intros (Hkey & Hout)%entities_of_key. split; [done|].
  destruct Hout as [->|(d & -> & ->)]; [by intros x ?%elem_of_nil|].
  intros x (ent & He & Hl & ->)%elem_of_common_entities.
  split; [apply replace_newline_no_newline|by exists d, ent].
Qed.

Lemma entity_map_contents_witness :
  "ORG" ∈ LABELS
  ∧ PyStr.contains newline "Nvidia" = false
  ∧ ∃ ent, ent ∈ ents six_orgs ∧ label_ ent = "ORG"
           ∧ "Nvidia" = PyStr.replace_newline (PyStr.strip (ent_text ent)).
Proof.
  destruct (entity_map_contents (Some six_orgs) "ORG"
              ["Apple"; "Nvidia"; "Dell"; "Intel"; "AMD"]) as (Hkey & Hall).
  - by vm_compute.
  - destruct (Hall "Nvidia") as (Hnl & d & ent & [= <-] & Hin & Hl & Hx).
    + right. by left.
    + split; [exact Hkey|]. split; [exact Hnl|]. by exists ent.
Defined.

(** ** The cleaned text *)

Section CleanFacts.

Local Abbreviation collapse s :=
  (ReMore.sub_scan false Scrape.whitespace_run " " 0 s).

Lemma star_space (s : string) :
  Re.star [Re.Space] s Some = Some (PyStr.lstrip s).
Proof.
  induction s as [|c s IH]; [done|].
  cbn [Re.star PyStr.lstrip Re.in_class existsb Re.item_matches].
  rewrite orb_false_r. destruct (PyStr.isspace c); [|done]. by rewrite IH.
Qed.

Lemma len_lstrip_le (s : string) : PyStr.len (PyStr.lstrip s) ≤ PyStr.len s.
Proof.
  induction s as [|c s IH]; [done|]. cbn [PyStr.lstrip].
  destruct (PyStr.isspace c); rewrite ?len_cons; lia.
Qed.

Lemma match_whitespace (c : ascii) (s : string) :
  Re.match_at false Scrape.whitespace_run (String c s)
  = if PyStr.isspace c
    then Some (PyStr.slice_to (S (PyStr.len s - PyStr.len (PyStr.lstrip s)))
                 (String c s))
    else None.
Proof.
  unfold Re.match_at, Scrape.whitespace_run.
  cbn [Re.run Re.in_class existsb Re.item_matches]. rewrite orb_false_r.
  destruct (PyStr.isspace c); [|done].
  rewrite star_space, len_cons. pose proof (len_lstrip_le s).
  by replace (S (PyStr.len s) - PyStr.len (PyStr.lstrip s))
    with (S (PyStr.len s - PyStr.len (PyStr.lstrip s))) by lia.
Qed.

Lemma sub_scan_skip (s : string) :
  ReMore.sub_scan false Scrape.whitespace_run " "
    (PyStr.len s - PyStr.len (PyStr.lstrip s)) s
  = collapse (PyStr.lstrip s).
Proof.
  induction s as [|c s IH]; [done|]. cbn [PyStr.lstrip].
  destruct (PyStr.isspace c) eqn:Hc.
  - pose proof (len_lstrip_le s). rewrite len_cons.
    replace (S (PyStr.len s) - PyStr.len (PyStr.lstrip s))
      with (S (PyStr.len s - PyStr.len (PyStr.lstrip s))) by lia.
    cbn [ReMore.sub_scan]. apply IH.
  - by rewrite Nat.sub_diag.
Qed.

Lemma collapse_space (c : ascii) (s : string) :
  PyStr.isspace c = true →
  collapse (String c s) = " " +:+ collapse (PyStr.lstrip s).
Proof.
  intros Hc. cbn [ReMore.sub_scan]. rewrite match_whitespace, Hc.
  rewrite len_slice_to, len_cons. pose proof (len_lstrip_le s).
  replace (S (PyStr.len s - PyStr.len (PyStr.lstrip s)) `min` S (PyStr.len s) - 1)
    with (PyStr.len s - PyStr.len (PyStr.lstrip s)) by lia.
  by rewrite sub_scan_skip.
Qed.

Lemma collapse_other (c : ascii) (s : string) :
  PyStr.isspace c = false → collapse (String c s) = String c (collapse s).
Proof. intros Hc. cbn [ReMore.sub_scan]. by rewrite match_whitespace, Hc. Qed.

Lemma lstrip_head (s : string) :
  PyStr.lstrip s = ""
  ∨ ∃ c t, PyStr.lstrip s = String c t ∧ PyStr.isspace c = false.
Proof.
  induction s as [|c s IH]; [by left|]. cbn [PyStr.lstrip].
  destruct (PyStr.isspace c) eqn:Hc; [done|]. right. by exists c, s.
Qed.

Lemma lstrip_cons_other (c : ascii) (s : string) :
  PyStr.isspace c = false → PyStr.lstrip (String c s) = String c s.
Proof. intros Hc. cbn [PyStr.lstrip]. by rewrite Hc. Qed.

Lemma lstrip_cons_space (c : ascii) (s : string) :
  PyStr.isspace c = true → PyStr.lstrip (String c s) = PyStr.lstrip s.
Proof. intros Hc. cbn [PyStr.lstrip]. by rewrite Hc. Qed.

Lemma lstrip_collapse_lstrip (s : string) :
  PyStr.lstrip (collapse (PyStr.lstrip s)) = collapse (PyStr.lstrip s).
Proof.
  destruct (lstrip_head s) as [->|(c & t & -> & Hc)]; [done|].
  rewrite collapse_other by done. by apply lstrip_cons_other.
Qed.

Lemma collapse_lstrip (s : string) :
  collapse (PyStr.lstrip s) = PyStr.lstrip (collapse s).
Proof.
  induction s as [|c s IH]; [done|]. destruct (PyStr.isspace c) eqn:Hc.
  - rewrite lstrip_cons_space, collapse_space by done.
    change (" " +:+ collapse (PyStr.lstrip s))
      with (String " " (collapse (PyStr.lstrip s))).
    rewrite lstrip_cons_space by done. by rewrite lstrip_collapse_lstrip.
  - rewrite lstrip_cons_other, collapse_other by done.
    by rewrite lstrip_cons_other.
Qed.

Lemma lstrip_idemp (s : string) : PyStr.lstrip (PyStr.lstrip s) = PyStr.lstrip s.
Proof.
  destruct (lstrip_head s) as [->|(c & t & -> & Hc)]; [done|].
  by apply lstrip_cons_other.
Qed.

Lemma rstrip_append (a b : string) :
  PyStr.rstrip (a +:+ b)
  = match PyStr.rstrip b with
    | "" => PyStr.rstrip a
    | _ => a +:+ PyStr.rstrip b
    end.
Proof.
  induction a as [|x a IH].
  - change ("" +:+ b) with b. by destruct (PyStr.rstrip b).
  - rewrite append_cons. cbn [PyStr.rstrip]. rewrite IH.
    destruct (PyStr.rstrip b) as [|y r]; [done|]. by destruct a.
Qed.

Lemma rstrip_no_space (t : string) : no_space t → PyStr.rstrip t = t.
Proof.
  unfold no_space. induction t as [|c t IH]; [done|]. cbn [list_ascii_of_string].
  intros [Hc Ht]%Forall_cons. cbn [PyStr.rstrip]. rewrite (IH Ht), Hc.
  by destruct t.
Qed.

Lemma string_of_list_ascii_snoc (l : list ascii) (c : ascii) :
  string_of_list_ascii (l ++ [c]) = string_of_list_ascii l +:+ String c "".
Proof. induction l as [|x l IH]; [done|]. simpl. by rewrite IH. Qed.

Lemma no_space_of_rev (cur : list ascii) :
  Forall (λ c, PyStr.isspace c = false) cur →
  no_space (string_of_list_ascii (rev cur)).
Proof.
  intros Hcur. unfold no_space.
  rewrite list_ascii_of_string_of_list_ascii. by apply Forall_rev.
Qed.

Lemma flush_tokens (cur : list ascii) :
  Forall (λ c, PyStr.isspace c = false) cur → Forall is_token (PyStr.flush cur).
Proof.
  intros Hcur. destruct cur as [|a cur]; [constructor|].
  unfold PyStr.flush. constructor; [|constructor]. split.
  - intros Hempty. apply (f_equal list_ascii_of_string) in Hempty.
    rewrite list_ascii_of_string_of_list_ascii in Hempty. simpl in Hempty.
    by destruct (rev cur).
  - by apply no_space_of_rev.
Qed.

Lemma split_from_tokens (cur : list ascii) (s : string) :
  Forall (λ c, PyStr.isspace c = false) cur →
  Forall is_token (PyStr.split_from cur s).
Proof.
  revert cur. induction s as [|c s IH]; intros cur Hcur;
    cbn [PyStr.split_from]; [by apply flush_tokens|].
  destruct (PyStr.isspace c) eqn:Hc.
  - apply Forall_app. split; [by apply flush_tokens|]. by apply IH.
  - apply IH. by constructor.
Qed.

Lemma join_cons (x : string) (l : list string) :
  l ≠ [] → PyStr.join " " (x :: l) = x +:+ " " +:+ PyStr.join " " l.
Proof. by destruct l. Qed.

Lemma join_empty (l : list string) :
  Forall is_token l → PyStr.join " " l = "" → l = [].
Proof.
  destruct l as [|x l]; [done|]. intros [[Hx _] _]%Forall_cons.
  destruct l as [|y l]; [done|]. rewrite join_cons by done. by destruct x.
Qed.

(** The collapsed text after a token under way, and at the start of the
    text. *)
Lemma collapse_split (s : string) :
  (∀ cur, cur ≠ [] → Forall (λ c, PyStr.isspace c = false) cur →
     PyStr.rstrip (string_of_list_ascii (rev cur) +:+ collapse s)
     = PyStr.join " " (PyStr.split_from cur s))
  ∧ PyStr.rstrip (PyStr.lstrip (collapse s))
    = PyStr.join " " (PyStr.split_from [] s).
Proof.
  induction s as [|c s [IHA IHB]].
  - split; [|done]. intros cur Hne Hcur. cbn [ReMore.sub_scan PyStr.split_from].
    rewrite append_nil_r, rstrip_no_space by by apply no_space_of_rev.
    by destruct cur.
  - destruct (PyStr.isspace c) eqn:Hc.
    + assert (Hcol : collapse (String c s)
                     = String " " (PyStr.lstrip (collapse s))).
      { rewrite collapse_space by done. by rewrite collapse_lstrip. }
      split.
      * intros cur Hne Hcur. rewrite Hcol.
        cbn [PyStr.split_from]. rewrite Hc.
        pose proof (split_from_tokens [] s (Forall_nil_2 _)) as Htok.
        change (String " " (PyStr.lstrip (collapse s)))
          with (" " +:+ PyStr.lstrip (collapse s)).
        rewrite <- append_assoc, rstrip_append, IHB.
        destruct cur as [|a cur]; [done|]. cbn [PyStr.flush app].
        destruct (PyStr.join " " (PyStr.split_from [] s)) as [|y r] eqn:Hj.
        -- rewrite (join_empty _ Htok Hj).
           rewrite rstrip_append. cbn [PyStr.rstrip].
           replace (PyStr.isspace " ") with true by reflexivity.
           by rewrite rstrip_no_space by by apply no_space_of_rev.
        -- rewrite join_cons by (intros Hnil; by rewrite Hnil in Hj).
           by rewrite Hj, append_assoc.
      * rewrite Hcol. rewrite lstrip_cons_space by done.
        rewrite lstrip_idemp. cbn [PyStr.split_from]. by rewrite Hc.
    + split.
      * intros cur Hne Hcur. rewrite collapse_other by done.
        cbn [PyStr.split_from]. rewrite Hc.
        rewrite <- (IHA (c :: cur)) by (done || by constructor).
        cbn [rev]. rewrite string_of_list_ascii_snoc, append_assoc. done.
      * rewrite collapse_other, lstrip_cons_other by done.
        cbn [PyStr.split_from]. rewrite Hc.
        by rewrite <- (IHA [c]) by (done || by repeat constructor).
Qed.

End CleanFacts.

Lemma split_from_token (cur : list ascii) (tok s : string) :
  no_space tok →
  PyStr.split_from cur (tok +:+ s)
  = PyStr.split_from (rev (list_ascii_of_string tok) ++ cur) s.
Proof.
  unfold no_space. revert cur. induction tok as [|c tok IH]; intros cur; [done|].
  cbn [list_ascii_of_string]. intros [Hc Htok]%Forall_cons.
  rewrite append_cons. cbn [PyStr.split_from rev]. rewrite Hc.
  rewrite (IH _ Htok). by rewrite <- app_assoc.
Qed.

Lemma flush_rev_token (tok : string) :
  tok ≠ "" → PyStr.flush (rev (list_ascii_of_string tok)) = [tok].
Proof.
  intros Hne. unfold PyStr.flush.
  destruct (rev (list_ascii_of_string tok)) as [|a l] eqn:Hrev.
  - apply (f_equal (@rev ascii)) in Hrev. rewrite rev_involutive in Hrev.
    apply (f_equal string_of_list_ascii) in Hrev.
    rewrite string_of_list_ascii_of_string in Hrev. done.
  - rewrite <- Hrev, rev_involutive. by rewrite string_of_list_ascii_of_string.
Qed.

Lemma split_join (l : list string) :
  Forall is_token l → PyStr.split (PyStr.join " " l) = l.
Proof.
  unfold PyStr.split. induction 1 as [|tok l [Hne Hns] Hl IH]; [done|].
  destruct l as [|x l].
  - cbn [PyStr.join]. rewrite <- (append_nil_r tok) at 1.
    rewrite split_from_token, app_nil_r by done.
    cbn [PyStr.split_from]. by apply flush_rev_token.
  - rewrite join_cons by done.
    rewrite split_from_token, app_nil_r by done.
    change (" " +:+ PyStr.join " " (x :: l))
      with (String " " (PyStr.join " " (x :: l))).
    cbn [PyStr.split_from]. replace (PyStr.isspace " ") with true by reflexivity.
    by rewrite flush_rev_token, IH.
Qed.

Lemma join_take_prefix (n : nat) (l : list string) :
  ∃ r, PyStr.join " " l = PyStr.join " " (take n l) +:+ r.
Proof.
  revert n. induction l as [|x l IH]; intros n.
  - exists "". by destruct n.
  - destruct n as [|n]; [by exists (PyStr.join " " (x :: l))|].
    cbn [take]. destruct l as [|y l]; [exists ""; by rewrite take_nil, append_nil_r|].
    destruct (IH n) as (r & Hr). rewrite join_cons by done.
    destruct n as [|n].
    + cbn [take PyStr.join]. by exists (" " +:+ PyStr.join " " (y :: l)).
    + exists r. cbn [take] in *.
      rewrite (join_cons x (y :: take n l)) by done. rewrite Hr.
      by rewrite !append_assoc.
Qed.

Lemma clean_join (text : string) :
  Scrape.clean text = PyStr.join " " (PyStr.split text).
Proof.
  unfold Scrape.clean, PyStr.strip, ReMore.sub, PyStr.split.
  apply (proj2 (collapse_split text)).
Qed.

Lemma split_tokens (text : string) : Forall is_token (PyStr.split text).
Proof. apply split_from_tokens. constructor. Qed.

Lemma split_clean (text : string) :
  PyStr.split (Scrape.clean text) = PyStr.split text.
Proof. rewrite clean_join. apply split_join, split_tokens. Qed.

(** X10.  The text that [get_article_text] returns for a parsed page,
    [re.sub(r'\s+', ' ', text).strip()], is the whitespace-delimited tokens
    of the extracted text joined by single spaces.  Cleaning keeps the tokens
    and changes nothing when it is applied twice. *)
Theorem clean_is_join_of_split (text : string) :
  Scrape.clean text = PyStr.join " " (PyStr.split text)
  ∧ PyStr.split (Scrape.clean text) = PyStr.split text
  ∧ Scrape.clean (Scrape.clean text) = Scrape.clean text
  ∧ Forall is_token (PyStr.split text).
Proof.
  split; [apply clean_join|]. split; [apply split_clean|].
  split; [|apply split_tokens].
  by rewrite (clean_join (Scrape.clean text)), split_clean, <- clean_join.
Qed.

(** X11.  On a scraped text the classifier is given a prefix of the text
    itself: its first 200 tokens, which are the first 200 tokens of the
    extracted page text; a scraped text of at most 200 tokens is given
    whole and unchanged. *)
Theorem classifier_input_of_clean_text (text : string) :
  text_for_classification (Scrape.clean text)
  = PyStr.join " " (take 200 (PyStr.split text))
  ∧ PyStr.startswith (text_for_classification (Scrape.clean text))
      (Scrape.clean text) = true
  ∧ (length (PyStr.split text) ≤ 200 →
     text_for_classification (Scrape.clean text) = Scrape.clean text).
Proof.
  pose proof (clean_join text) as Hclean.
  pose proof (split_clean text) as Hsplit.
  assert (Heq : text_for_classification (Scrape.clean text)
                = PyStr.join " " (take 200 (PyStr.split text))).
  { unfold text_for_classification. by rewrite Hsplit. }
  split; [done|]. split.
  - rewrite Heq, Hclean.
    destruct (join_take_prefix 200 (PyStr.split text)) as (r & Hr).
    rewrite Hr. apply startswith_append.
  - intros Hlen. rewrite Heq, Hclean. by rewrite take_ge.
Qed.

Lemma classifier_input_of_clean_text_witness :
  text_for_classification (Scrape.clean ("  Apple   grew " +:+ newline +:+ " fast "))
  = "Apple grew fast"
  ∧ Scrape.clean ("  Apple   grew " +:+ newline +:+ " fast ") = "Apple grew fast".
Proof.
  destruct (classifier_input_of_clean_text
              ("  Apple   grew " +:+ newline +:+ " fast ")) as (_ & _ & Hwhole).
  assert (Hc : Scrape.clean ("  Apple   grew " +:+ newline +:+ " fast ")
               = "Apple grew fast") by (by vm_compute).
  split; [|done]. rewrite Hwhole; [done|]. vm_compute. lia.
Defined.

(** ** How many entities a category holds *)

(** X12.  A category of the entity map holds as many strings as there are
    distinct stripped mentions of its label, up to 5: nothing is dropped
    while there are at most 5, and a label that is mentioned never comes
    back empty. *)
Theorem entity_count (d : Doc) (label : string) (out : list string) :
  entities_of (Some d) !! label = Some out →
  length out = 5 `min` length (Pandas.drop_duplicates (label_entities label d))
  ∧ (label_entities label d ≠ [] → out ≠ []).
Proof.
  intros Hlook.
  assert (Hl : label ∈ LABELS) by (by destruct (entities_of_key _ _ _ Hlook)).
  rewrite (entities_of_lookup d label Hl), common_entities_ranking in Hlook.
  injection Hlook as <-.
  destruct (ranking_spec (label_entities label d)) as (Hnd & Hin & _).
  assert (Hlen : length (Counter.ranking (label_entities label d))
                 = length (Pandas.drop_duplicates (label_entities label d))).
  { apply Permutation_length, NoDup_Permutation; [done|apply NoDup_drop_from|].
    intros x. by rewrite Hin, elem_of_drop_duplicates. }
  split; [by rewrite length_fmap, length_take, Hlen|].
  intros Hne Hout. apply (f_equal length) in Hout.
  rewrite length_fmap, length_take, Hlen in Hout.
  destruct (label_entities label d) as [|m ms]; [done|].
  by destruct (decide (m ∈ [])) as [?%elem_of_nil|].
Qed.

Lemma entity_count_witness :
  length ["Apple"; "Nvidia"; "Dell"; "Intel"; "AMD"]
  = 5 `min` length (Pandas.drop_duplicates (label_entities "ORG" six_orgs)).
Proof.
  destruct (entity_count six_orgs "ORG" ["Apple"; "Nvidia"; "Dell"; "Intel"; "AMD"])
    as (Hlen & _); [by vm_compute|exact Hlen].
Defined.

(** ** The document of [html_to_word] *)

Lemma elem_of_block_of (elem : ExportReport.Tag) (b : ExportReport.Block) :
  b ∈ ExportReport.block_of elem →
  ExportReport.get_text elem ≠ ""
  ∧ (b = ExportReport.Heading (ExportReport.get_text elem) 1
       ∧ ExportReport.name elem = "h1"
     ∨ b = ExportReport.Heading (ExportReport.get_text elem) 2
       ∧ ExportReport.name elem = "h2"
     ∨ b = ExportReport.Heading (ExportReport.get_text elem) 3
       ∧ ExportReport.name elem = "h3"
     ∨ b = ExportReport.BulletParagraph (ExportReport.get_text elem)
       ∧ ExportReport.name elem = "li"
     ∨ b = ExportReport.Paragraph (ExportReport.get_text elem)
       ∧ ExportReport.name elem ∉ ["h1"; "h2"; "h3"; "li"]).
Proof.
  unfold ExportReport.block_of, ExportReport.empty.
  destruct (ExportReport.get_text elem) as [|c t] eqn:Ht;
    [by intros ?%elem_of_nil|].
  change (PyStr.len (String c t) =? 0) with false. cbv iota.
  split; [done|].
  repeat case_decide; apply list_elem_of_singleton in H as ->; try tauto.
  do 4 right. split; [done|]. set_solver.
Qed.

(** X13.  Every block of the document that [html_to_word] builds has a
    non-empty text, which is the stripped text of a tag of the page: a
    heading of level 1 comes from an h1 or from the title, one of level 2 or 3
    from an h2 or h3, a bullet paragraph from an li, and a plain paragraph
    from a p.  Tags without text and tags of other names leave no block. *)
Theorem html_to_word_blocks (soup : list ExportReport.Tag)
    (b : ExportReport.Block) :
  b ∈ ExportReport.html_to_word soup →
  ∃ tag, tag ∈ soup ∧ ExportReport.get_text tag ≠ ""
    ∧ (b = ExportReport.Heading (ExportReport.get_text tag) 1
         ∧ ExportReport.name tag ∈ ["h1"; "title"]
       ∨ b = ExportReport.Heading (ExportReport.get_text tag) 2
         ∧ ExportReport.name tag = "h2"
       ∨ b = ExportReport.Heading (ExportReport.get_text tag) 3
         ∧ ExportReport.name tag = "h3"
       ∨ b = ExportReport.BulletParagraph (ExportReport.get_text tag)
         ∧ ExportReport.name tag = "li"
       ∨ b = ExportReport.Paragraph (ExportReport.get_text tag)
         ∧ ExportReport.name tag = "p").
Proof.
  unfold ExportReport.html_to_word. intros [Hb|Hb]%elem_of_app.
  - unfold ExportReport.find in Hb.
    destruct (head _) as [tag|] eqn:Hhead; [|by apply elem_of_nil in Hb].
    apply head_Some_elem_of in Hhead.
    apply list_elem_of_filter in Hhead as [Hname Hin].
    unfold ExportReport.empty in Hb.
    destruct (ExportReport.get_text tag) as [|c t] eqn:Ht;
      [by apply elem_of_nil in Hb|].
    change (PyStr.len (String c t) =? 0) with false in Hb. cbv iota in Hb.
    apply list_elem_of_singleton in Hb as ->.
    exists tag. rewrite Ht. split; [done|]. split; [done|]. by left.
  - apply list_elem_of_In, in_flat_map in Hb as (tag & Hin & Hb).
    apply list_elem_of_In in Hin, Hb.
    apply list_elem_of_filter in Hin as [Hname Hin].
    apply elem_of_block_of in Hb as [Hne Hb].
    exists tag. split; [done|]. split; [done|].
    destruct Hb as [[-> Hn]|[[-> Hn]|[[-> Hn]|[[-> Hn]|[-> Hn]]]]].
    + left. split; [done|]. rewrite Hn. by left.
    + right. by left.
    + do 2 right. by left.
    + do 3 right. by left.
    + do 4 right. split; [done|]. set_solver.
Qed.

Lemma html_to_word_blocks_witness :
  ∃ tag, tag ∈ [ {| ExportReport.name := "div"; ExportReport.get_text := "x" |};
                 {| ExportReport.name := "li"; ExportReport.get_text := "item" |} ]
         ∧ ExportReport.name tag = "li" ∧ ExportReport.get_text tag = "item".
Proof.
  destruct (html_to_word_blocks
              [ {| ExportReport.name := "div"; ExportReport.get_text := "x" |};
                {| ExportReport.name := "li"; ExportReport.get_text := "item" |} ]
              (ExportReport.BulletParagraph "item"))
    as (tag & Hin & _ & Hb).
  - vm_compute. by left.
  - exists tag. split; [exact Hin|].
    destruct Hb as [[[=] _]|[[[=] _]|[[[=] _]|[[[= Ht] Hn]|[[=] _]]]]].
    by split.
Defined.

(** X14.  When the first h1 or title tag of the page is an h1 with text,
    that text is written twice: as the title that opens the document, and
    again as a level-1 heading when the loop reaches the same tag. *)
Theorem html_to_word_repeats_h1 (soup : list ExportReport.Tag)
    (tag : ExportReport.Tag) :
  ExportReport.find ["h1"; "title"] soup = Some tag →
  ExportReport.name tag = "h1" →
  ExportReport.get_text tag ≠ "" →
  ∃ body,
    ExportReport.html_to_word soup
    = ExportReport.Heading (ExportReport.get_text tag) 1 :: body
    ∧ ExportReport.Heading (ExportReport.get_text tag) 1 ∈ body.
Proof.
  intros Hfind Hname Hne. unfold ExportReport.html_to_word. rewrite Hfind.
  assert (He : ExportReport.empty (ExportReport.get_text tag) = false).
  { unfold ExportReport.empty. by destruct (ExportReport.get_text tag). }
  rewrite He. eexists. split; [reflexivity|].
  apply list_elem_of_In, in_flat_map. exists tag. split.
  - apply list_elem_of_In, list_elem_of_filter.
    unfold ExportReport.find in Hfind. apply head_Some_elem_of in Hfind.
    apply list_elem_of_filter in Hfind as [_ Hin].
    split; [|done]. rewrite Hname. by left.
  - apply list_elem_of_In. unfold ExportReport.block_of.
    rewrite He, decide_True by done. by left.
Qed.

Lemma html_to_word_repeats_h1_witness :
  ExportReport.html_to_word
    [ {| ExportReport.name := "p"; ExportReport.get_text := "Intro" |};
      {| ExportReport.name := "h1"; ExportReport.get_text := "Report" |} ]
  = [ExportReport.Heading "Report" 1; ExportReport.Paragraph "Intro";
     ExportReport.Heading "Report" 1].
Proof.
  destruct (html_to_word_repeats_h1
              [ {| ExportReport.name := "p"; ExportReport.get_text := "Intro" |};
                {| ExportReport.name := "h1"; ExportReport.get_text := "Report" |} ]
              {| ExportReport.name := "h1"; ExportReport.get_text := "Report" |})
    as (body & Heq & _).
  - by vm_compute.
  - reflexivity.
  - discriminate.
  - rewrite Heq. by vm_compute.
Defined.

(** ** [html_to_pdf] *)

Lemma fallback_outcome (w : ExportReport.World) (html pdf : string)
    (is_path : bool) :
  (ExportReport.fallback w html pdf is_path).2
  = if negb (ExportReport.docx2pdf_imported w)
    then Raise ExportReport.no_converter
    else match ExportReport.run w
                 (ExportReport.HtmlToWord html (ExportReport.temp_docx pdf) is_path) with
         | Ok _ => ExportReport.run w
                     (ExportReport.Docx2Pdf (ExportReport.temp_docx pdf) pdf)
         | Raise e => Raise e
         end.
Proof.
  unfold ExportReport.fallback.
  destruct (negb (ExportReport.docx2pdf_imported w)); [done|].
  by destruct (ExportReport.run w (ExportReport.HtmlToWord _ _ _)).
Qed.

Lemma html_to_pdf_outcome (w : ExportReport.World) (html pdf : string)
    (is_path : bool) :
  (ExportReport.html_to_pdf w html pdf is_path).2
  = if ExportReport.PDFKIT_AVAILABLE w then
      match ExportReport.run w
              (if is_path then ExportReport.PdfkitFromFile html pdf
               else ExportReport.PdfkitFromString html pdf) with
      | Ok _ => Ok tt
      | Raise _ => (ExportReport.fallback w html pdf is_path).2
      end
    else (ExportReport.fallback w html pdf is_path).2.
Proof.
  unfold ExportReport.html_to_pdf.
  destruct (ExportReport.PDFKIT_AVAILABLE w); [|done].
  destruct (ExportReport.run w _); [done|].
  by destruct (ExportReport.fallback w html pdf is_path).
Qed.

(** X15.  [html_to_pdf] returns normally only when a PDF has been written:
    by [pdfkit], or, with [pdfkit] missing or failing, by [html_to_word]
    followed by [docx2pdf].  When [pdfkit] gives no PDF and [docx2pdf] could
    not be imported it raises the [RuntimeError] that asks for wkhtmltopdf,
    without trying anything else. *)
Theorem html_to_pdf_succeeds_iff (w : ExportReport.World) (html pdf : string)
    (is_path : bool) :
  let convert :=
    if is_path then ExportReport.PdfkitFromFile html pdf
    else ExportReport.PdfkitFromString html pdf in
  let temp := ExportReport.temp_docx pdf in
  let pdfkit_works :=
    ExportReport.PDFKIT_AVAILABLE w = true ∧ ExportReport.run w convert = Ok tt in
  ((ExportReport.html_to_pdf w html pdf is_path).2 = Ok tt ↔
   pdfkit_works
   ∨ (¬ pdfkit_works
      ∧ ExportReport.docx2pdf_imported w = true
      ∧ ExportReport.run w (ExportReport.HtmlToWord html temp is_path) = Ok tt
      ∧ ExportReport.run w (ExportReport.Docx2Pdf temp pdf) = Ok tt))
  ∧ (¬ pdfkit_works → ExportReport.docx2pdf_imported w = false →
     (ExportReport.html_to_pdf w html pdf is_path).2
     = Raise ExportReport.no_converter
     ∧ ∀ c, c ∈ (ExportReport.html_to_pdf w html pdf is_path).1 → c = convert).
Proof.
  intros convert temp pdfkit_works. unfold pdfkit_works.
  rewrite html_to_pdf_outcome, fallback_outcome. fold convert temp.
  split.
  - destruct (ExportReport.PDFKIT_AVAILABLE w);
      [destruct (ExportReport.run w convert) as [[]|e]|].
    + split; [by left|done].
    + destruct (ExportReport.docx2pdf_imported w); simpl;
        [destruct (ExportReport.run w (ExportReport.HtmlToWord html temp is_path))
           as [[]|e1]|].
      * split.
        -- intros Hd. right. split; [by intros [_ [=]]|done].
        -- by intros [[_ [=]]|(_ & _ & _ & ?)].
      * split; [done|]. by intros [[_ [=]]|(_ & _ & [=] & _)].
      * split; [done|]. by intros [[_ [=]]|(_ & [=] & _)].
    + destruct (ExportReport.docx2pdf_imported w); simpl;
        [destruct (ExportReport.run w (ExportReport.HtmlToWord html temp is_path))
           as [[]|e1]|].
      * split.
        -- intros Hd. right. split; [by intros [[=] _]|done].
        -- by intros [[[=] _]|(_ & _ & _ & ?)].
      * split; [done|]. by intros [[[=] _]|(_ & _ & [=] & _)].
      * split; [done|]. by intros [[[=] _]|(_ & [=] & _)].
  - intros Hno Hdocx. rewrite Hdocx. simpl.
    unfold ExportReport.html_to_pdf, ExportReport.fallback. fold convert.
    rewrite Hdocx. simpl.
    destruct (ExportReport.PDFKIT_AVAILABLE w);
      [destruct (ExportReport.run w convert) as [[]|e]|]; simpl.
    + by destruct Hno.
    + split; [done|]. by intros c ->%list_elem_of_singleton.
    + split; [done|]. by intros c ?%elem_of_nil.
Qed.

Lemma html_to_pdf_succeeds_iff_witness :
  (ExportReport.html_to_pdf
     {| ExportReport.PDFKIT_AVAILABLE := false;
        ExportReport.docx2pdf_imported := false;
        ExportReport.run := λ _, Ok tt;
        ExportReport.path_exists := λ _, true |}
     "/tmp/report.html" "/tmp/report.pdf" true).2
  = Raise ExportReport.no_converter.
Proof.
  destruct (html_to_pdf_succeeds_iff
              {| ExportReport.PDFKIT_AVAILABLE := false;
                 ExportReport.docx2pdf_imported := false;
                 ExportReport.run := λ _, Ok tt;
                 ExportReport.path_exists := λ _, true |}
              "/tmp/report.html" "/tmp/report.pdf" true) as (_ & Hnone).
  destruct Hnone as (Hraise & _); [by intros [[=] _]|reflexivity|exact Hraise].
Defined.

Lemma html_to_pdf_calls (w : ExportReport.World) (html pdf : string)
    (is_path : bool) :
  let temp := ExportReport.temp_docx pdf in
  let calls := (ExportReport.html_to_pdf w html pdf is_path).1 in
  (ExportReport.HtmlToWord html temp is_path ∈ calls →
   ∃ before,
     calls = before ++ (if ExportReport.path_exists w temp
                        then [ExportReport.PathExists temp; ExportReport.Remove temp]
                        else [ExportReport.PathExists temp]))
  ∧ (∀ p, ExportReport.Remove p ∈ calls →
          p = temp ∧ ExportReport.path_exists w temp = true
          ∧ ExportReport.HtmlToWord html temp is_path ∈ calls).
Proof.
  intros temp calls. subst temp calls.
  set (temp := ExportReport.temp_docx pdf).
  assert (Hfb : ∀ pre,
    let fcalls := (ExportReport.fallback w html pdf is_path).1 in
    (∀ c, c ∈ pre → (∀ p, c ≠ ExportReport.Remove p)
                    ∧ c ≠ ExportReport.HtmlToWord html temp is_path) →
    (ExportReport.HtmlToWord html temp is_path ∈ pre ++ fcalls →
     ∃ before,
       pre ++ fcalls
       = before ++ (if ExportReport.path_exists w temp
                    then [ExportReport.PathExists temp; ExportReport.Remove temp]
                    else [ExportReport.PathExists temp]))
    ∧ (∀ p, ExportReport.Remove p ∈ pre ++ fcalls →
            p = temp ∧ ExportReport.path_exists w temp = true
            ∧ ExportReport.HtmlToWord html temp is_path ∈ pre ++ fcalls)).
  { intros pre fcalls Hpre. unfold fcalls, ExportReport.fallback. fold temp. cbv zeta.
    destruct (negb (ExportReport.docx2pdf_imported w)); simpl.
    - rewrite app_nil_r. split.
      + intros Hin. by destruct (Hpre _ Hin) as [_ ?].
      + intros p Hin. by destruct (Hpre _ Hin) as [Hr _]; destruct (Hr p).
    - destruct (ExportReport.run w (ExportReport.HtmlToWord html temp is_path));
        simpl; (split; [intros _|]).
      + exists (pre ++ [ExportReport.HtmlToWord html temp is_path;
                        ExportReport.Docx2Pdf temp pdf]).
        by rewrite <- app_assoc.
      + intros p [Hin|Hin]%elem_of_app;
          [by destruct (Hpre _ Hin) as [Hr _]; destruct (Hr p)|].
        destruct (ExportReport.path_exists w temp) eqn:He; [|set_solver].
        assert (p = temp) as -> by set_solver.
        split; [done|]. split; [done|]. set_solver.
      + exists (pre ++ [ExportReport.HtmlToWord html temp is_path]).
        by rewrite <- app_assoc.
      + intros p [Hin|Hin]%elem_of_app;
          [by destruct (Hpre _ Hin) as [Hr _]; destruct (Hr p)|].
        destruct (ExportReport.path_exists w temp) eqn:He; [|set_solver].
        assert (p = temp) as -> by set_solver.
        split; [done|]. split; [done|]. set_solver. }
  assert (Hcalls : (ExportReport.html_to_pdf w html pdf is_path).1 = (ExportReport.fallback w html pdf is_path).1
                   ∨ (∃ convert, (∀ p, convert ≠ ExportReport.Remove p)
                        ∧ convert ≠ ExportReport.HtmlToWord html temp is_path
                        ∧ ((ExportReport.html_to_pdf w html pdf is_path).1 = [convert]
                           ∨ (ExportReport.html_to_pdf w html pdf is_path).1 = [convert]
                                     ++ (ExportReport.fallback w html pdf is_path).1))).
  { unfold ExportReport.html_to_pdf.
    destruct (ExportReport.PDFKIT_AVAILABLE w); [|by left]. right.
    exists (if is_path then ExportReport.PdfkitFromFile html pdf
            else ExportReport.PdfkitFromString html pdf).
    split; [by destruct is_path|]. split; [by destruct is_path|].
    destruct (ExportReport.run w _); [by left|right].
    by destruct (ExportReport.fallback w html pdf is_path). }
  split.
  - destruct Hcalls as [->|(convert & Hr & Hh & [->| ->])].
    + apply (Hfb []). by intros c ?%elem_of_nil.
    + intros Heq%list_elem_of_singleton. by destruct Hh.
    + apply (Hfb [convert]). by intros c ->%list_elem_of_singleton.
  - destruct Hcalls as [->|(convert & Hr & Hh & [->| ->])].
    + apply (Hfb []). by intros c ?%elem_of_nil.
    + intros p Heq%list_elem_of_singleton. by destruct (Hr p).
    + apply (Hfb [convert]). by intros c ->%list_elem_of_singleton.
Qed.

(** X16.  The [finally] block of the fallback: once [html_to_word] has been
    called, the calls end with the check for the temporary .docx and, when it
    exists, its removal, whether the conversion worked or raised.  Nothing
    but that temporary file is ever removed, and only after the check found
    it; how the removal ends has no effect on the outcome. *)
Theorem html_to_pdf_cleans_up (w : ExportReport.World) (html pdf : string)
    (is_path : bool) :
  let temp := ExportReport.temp_docx pdf in
  let calls := (ExportReport.html_to_pdf w html pdf is_path).1 in
  (ExportReport.HtmlToWord html temp is_path ∈ calls →
   ∃ before,
     calls = before ++ (if ExportReport.path_exists w temp
                        then [ExportReport.PathExists temp; ExportReport.Remove temp]
                        else [ExportReport.PathExists temp]))
  ∧ (∀ p, ExportReport.Remove p ∈ calls →
          p = temp ∧ ExportReport.path_exists w temp = true
          ∧ ExportReport.HtmlToWord html temp is_path ∈ calls)
  ∧ (∀ run',
       (∀ c, (∀ p, c ≠ ExportReport.Remove p) → run' c = ExportReport.run w c) →
       ExportReport.html_to_pdf
         {| ExportReport.PDFKIT_AVAILABLE := ExportReport.PDFKIT_AVAILABLE w;
            ExportReport.docx2pdf_imported := ExportReport.docx2pdf_imported w;
            ExportReport.run := run';
            ExportReport.path_exists := ExportReport.path_exists w |}
         html pdf is_path
       = ExportReport.html_to_pdf w html pdf is_path).
Proof.
  intros temp calls. destruct (html_to_pdf_calls w html pdf is_path) as [H1 H2].
  split; [exact H1|]. split; [exact H2|].
  intros run' Hrun. unfold ExportReport.html_to_pdf, ExportReport.fallback.
    simpl. rewrite !Hrun by (by destruct is_path). done.
Qed.

Lemma html_to_pdf_cleans_up_witness :
  (ExportReport.html_to_pdf
     {| ExportReport.PDFKIT_AVAILABLE := true;
        ExportReport.docx2pdf_imported := true;
        ExportReport.run :=
          λ c, match c with
               | ExportReport.HtmlToWord _ _ _ => Ok tt
               | _ => Raise (Exception "conversion failed")
               end;
        ExportReport.path_exists := λ _, true |}
     "/tmp/report.html" "/tmp/report.pdf" true)
  = ([ExportReport.PdfkitFromFile "/tmp/report.html" "/tmp/report.pdf";
      ExportReport.HtmlToWord "/tmp/report.html" "/tmp/report_temp.docx" true;
      ExportReport.Docx2Pdf "/tmp/report_temp.docx" "/tmp/report.pdf";
      ExportReport.PathExists "/tmp/report_temp.docx";
      ExportReport.Remove "/tmp/report_temp.docx"],
     Raise (Exception "conversion failed")).
Proof.
  destruct (html_to_pdf_cleans_up
              {| ExportReport.PDFKIT_AVAILABLE := true;
                 ExportReport.docx2pdf_imported := true;
                 ExportReport.run :=
                   λ c, match c with
                        | ExportReport.HtmlToWord _ _ _ => Ok tt
                        | _ => Raise (Exception "conversion failed")
                        end;
                 ExportReport.path_exists := λ _, true |}
              "/tmp/report.html" "/tmp/report.pdf" true) as (Hend & _ & _).
  destruct Hend as (before & Heq); [vm_compute; right; by left|].
  by vm_compute.
Defined.

(** ** The temporary path *)

Lemma replace_absent (old new s : string) :
  PyStr.contains old s = false → ExportReport.replace_scan old new 0 s = s.
Proof.
  induction s as [|c s IH]; [done|].
  cbn [PyStr.contains ExportReport.replace_scan].
  intros [Hst Hc]%orb_false_iff. rewrite Hst. by rewrite IH.
Qed.

Lemma startswith_len (p s : string) :
  PyStr.startswith p s = true → PyStr.len p ≤ PyStr.len s.
Proof. intros (r & ->)%startswith_inv. rewrite len_append. lia. Qed.

Lemma len_replace_ge (old new : string) :
  1 ≤ PyStr.len old ≤ PyStr.len new →
  ∀ s k, k ≤ PyStr.len s →
    PyStr.len s - k ≤ PyStr.len (ExportReport.replace_scan old new k s).
Proof.
  intros Hlen s. induction s as [|c s IH]; intros k Hk; [simpl; lia|].
  rewrite len_cons in *. cbn [ExportReport.replace_scan].
  destruct k as [|k].
  - destruct (PyStr.startswith old (String c s)) eqn:Hst.
    + apply startswith_len in Hst. rewrite len_cons in Hst.
      rewrite len_append. specialize (IH (PyStr.len old - 1)). lia.
    + rewrite len_cons. specialize (IH 0). lia.
  - specialize (IH k). lia.
Qed.

Lemma len_replace_gt (old new s : string) :
  1 ≤ PyStr.len old < PyStr.len new →
  PyStr.contains old s = true →
  PyStr.len s < PyStr.len (ExportReport.replace_scan old new 0 s).
Proof.
  intros Hlen. induction s as [|c s IH].
  - cbn [PyStr.contains]. rewrite orb_false_r.
    intros Hst%startswith_len. simpl in Hst. lia.
  - cbn [PyStr.contains ExportReport.replace_scan].
    destruct (PyStr.startswith old (String c s)) eqn:Hst.
    + intros _. apply startswith_len in Hst. rewrite len_cons in *.
      rewrite len_append.
      pose proof (len_replace_ge old new ltac:(lia) s (PyStr.len old - 1)). lia.
    + cbn [orb]. intros Hc. rewrite !len_cons. specialize (IH Hc). lia.
Qed.

(** X17.  The temporary .docx of the fallback is the PDF path itself exactly
    when that path does not contain ".pdf".  With ".pdf" in the path
    [html_to_pdf] never removes the PDF it was asked to write; without it the
    fallback saves the .docx under the PDF path, converts it onto itself and,
    finding the file, removes it. *)
Theorem temp_docx_and_output (pdf_file : string) :
  (ExportReport.temp_docx pdf_file = pdf_file
   ↔ PyStr.contains ".pdf" pdf_file = false)
  ∧ (PyStr.contains ".pdf" pdf_file = true →
     ∀ w html is_path,
       ExportReport.Remove pdf_file
       ∉ (ExportReport.html_to_pdf w html pdf_file is_path).1)
  ∧ (PyStr.contains ".pdf" pdf_file = false →
     ∀ w html is_path,
       ExportReport.PDFKIT_AVAILABLE w = false →
       ExportReport.docx2pdf_imported w = true →
       ExportReport.path_exists w pdf_file = true →
       ∃ before,
         (ExportReport.html_to_pdf w html pdf_file is_path).1
         = ExportReport.HtmlToWord html pdf_file is_path :: before
           ++ [ExportReport.PathExists pdf_file; ExportReport.Remove pdf_file]).
Proof.
  assert (Hiff : ExportReport.temp_docx pdf_file = pdf_file
                 ↔ PyStr.contains ".pdf" pdf_file = false).
  { unfold ExportReport.temp_docx, ExportReport.replace. split.
    - intros Heq. destruct (PyStr.contains ".pdf" pdf_file) eqn:Hc; [|done].
      apply (len_replace_gt ".pdf" "_temp.docx") in Hc; [|simpl; lia].
      rewrite Heq in Hc. lia.
    - apply replace_absent. }
  split; [done|]. split.
  - intros Hc w html is_path Hin.
    destruct (html_to_pdf_calls w html pdf_file is_path) as [_ Hrm].
    destruct (Hrm _ Hin) as (Heq & _).
    symmetry in Heq. apply Hiff in Heq. congruence.
  - intros Hc w html is_path Hkit Hdocx Hex. apply Hiff in Hc.
    unfold ExportReport.html_to_pdf, ExportReport.fallback.
    rewrite Hkit, Hdocx, Hc, Hex. simpl.
    destruct (ExportReport.run w (ExportReport.HtmlToWord html pdf_file is_path));
      simpl; [by exists [ExportReport.Docx2Pdf pdf_file pdf_file]|by exists []].
Qed.

Lemma temp_docx_and_output_witness :
  ExportReport.temp_docx "/tmp/report.pdf" = "/tmp/report_temp.docx"
  ∧ ExportReport.temp_docx "/tmp/report" = "/tmp/report"
  ∧ ∃ before,
      (ExportReport.html_to_pdf
         {| ExportReport.PDFKIT_AVAILABLE := false;
            ExportReport.docx2pdf_imported := true;
            ExportReport.run := λ _, Ok tt;
            ExportReport.path_exists := λ _, true |}
         "/tmp/report.html" "/tmp/report" true).1
      = ExportReport.HtmlToWord "/tmp/report.html" "/tmp/report" true :: before
        ++ [ExportReport.PathExists "/tmp/report"; ExportReport.Remove "/tmp/report"].
Proof.
  destruct (temp_docx_and_output "/tmp/report") as ((_ & Hsame) & _ & Hself).
  split; [by vm_compute|]. split; [by apply Hsame|].
  by apply Hself.
Defined.

(** ** The paths of [download_report] *)

Lemma contains_replace (old new s : string) :
  old ≠ "" →
  PyStr.contains old s = true →
  PyStr.contains new (ExportReport.replace_scan old new 0 s) = true.
Proof.
  intros Hold. induction s as [|c s IH].
  - cbn [PyStr.contains]. rewrite orb_false_r. by destruct old.
  - cbn [PyStr.contains ExportReport.replace_scan].
    destruct (PyStr.startswith old (String c s)) eqn:Hst.
    + intros _. apply (contains_middle "" new).
    + cbn [orb PyStr.contains]. intros Hc. rewrite (IH Hc). apply orb_true_r.
Qed.

(** X18.  For the temporary HTML file of [download_report], whose name ends
    in ".html", the PDF path derived from it contains ".pdf": the temporary
    .docx of the fallback is a different file, and [html_to_pdf] never removes
    the PDF that [download_report] is about to read. *)
Theorem download_pdf_is_kept (stem : string) :
  let html_temp_path := stem +:+ ".html" in
  let pdf_temp_path := Download.pdf_temp_path html_temp_path in
  PyStr.contains ".pdf" pdf_temp_path = true
  ∧ ExportReport.temp_docx pdf_temp_path ≠ pdf_temp_path
  ∧ ∀ w is_path,
      ExportReport.Remove pdf_temp_path
      ∉ (ExportReport.html_to_pdf w html_temp_path pdf_temp_path is_path).1.
Proof.
  intros html_temp_path pdf_temp_path.
  assert (Hc : PyStr.contains ".pdf" pdf_temp_path = true).
  { unfold pdf_temp_path, Download.pdf_temp_path, ExportReport.replace.
    apply contains_replace; [done|]. unfold html_temp_path.
    rewrite <- (append_nil_r ".html"). apply contains_middle. }
  assert (Hne : ExportReport.temp_docx pdf_temp_path ≠ pdf_temp_path).
  { unfold ExportReport.temp_docx, ExportReport.replace. intros Heq.
    apply (len_replace_gt ".pdf" "_temp.docx") in Hc; [|simpl; lia].
    rewrite Heq in Hc. lia. }
  split; [done|]. split; [done|].
  intros w is_path Hin.
  destruct (html_to_pdf_calls w html_temp_path pdf_temp_path is_path) as [_ Hrm].
  destruct (Hrm _ Hin) as (Heq & _). by symmetry in Heq.
Qed.

(** * The loop of the linker: state, candidates, values *)

Lemma rstrip_cons_other (c : ascii) (s : string) :
  PyStr.isspace c = false →
  PyStr.rstrip (String c s) = String c (PyStr.rstrip s).
Proof.
  intros Hc. cbn [PyStr.rstrip]. destruct (PyStr.rstrip s); [|done].
  by rewrite Hc.
Qed.

Lemma amount_class_no_space (d : ascii) :
  Re.in_class [Re.Digit; Re.Char "."; Re.Char ","] d = true →
  PyStr.isspace d = false.
Proof.
  destruct d as [[] [] [] [] [] [] [] []]; vm_compute; intros H;
    (discriminate H || reflexivity).
Qed.

(** A match of [\$cls+...] opens with "$" and a character of the class. *)
Lemma match_at_dollar_plus (cls : list Re.citem) (r' : Re.regex) (s m : string) :
  Re.match_at true (Re.Seq (Re.Lit "$") (Re.Seq (Re.Plus cls) r')) s = Some m →
  ∃ d m', m = String "$" (String d m') ∧ Re.in_class cls d = true.
Proof.
  unfold Re.match_at. cbn [Re.run].
  destruct (Re.lit true "$" s _) as [rest|] eqn:Hl; [|done].
  destruct s as [|b s]; [done|]. cbn [Re.lit] in Hl.
  destruct (Re.char_eq true "$" b) eqn:Hb; [|done].
  apply dollar_only in Hb as ->.
  destruct s as [|d s]; [done|].
  destruct (Re.in_class cls d) eqn:Hd; [|done].
  apply star_inv in Hl as (m2 & s2 & -> & Hl).
  apply (run_inv true) in Hl as (m3 & s3 & -> & [= ->]).
  change (String "$" (String d (m2 +:+ m3 +:+ rest)))
    with (String "$" (String d "") +:+ (m2 +:+ m3 +:+ rest)).
  rewrite <- !append_assoc, slice_to_append. intros [= <-].
  exists d, (m2 +:+ m3). split; [by rewrite !append_assoc|done].
Qed.

Lemma match_at_amount (s m : string) :
  Re.match_at true amount_pattern s = Some m →
  ∃ d m', m = String "$" (String d m') ∧ PyStr.isspace d = false.
Proof.
  unfold amount_pattern. intros (d & m' & -> & Hd)%match_at_dollar_plus.
  exists d, m'. split; [done|]. by apply amount_class_no_space.
Qed.

Lemma metric_pattern_amount (name : string) (details : MetricSpec) :
  (name, details) ∈ FINANCIAL_METRICS → name ≠ "Earnings Per Share" →
  pattern details = amount_pattern.
Proof.
  unfold FINANCIAL_METRICS. intros Hin Hne.
  repeat (apply elem_of_cons in Hin as [[= Hn ->]|Hin]; [done|]).
  by apply elem_of_nil in Hin.
Qed.

Lemma strip_starts_with_dollar (m' : string) :
  PyStr.startswith "$" (PyStr.strip (String "$" m')) = true
  ∧ 1 ≤ PyStr.len (PyStr.strip (String "$" m')).
Proof.
  destruct (strip_dollar m') as (r & ->). split; [done|].
  rewrite len_cons. lia.
Qed.

Lemma value_of_match (name : string) (details : MetricSpec) (text value : string) :
  (name, details) ∈ FINANCIAL_METRICS →
  value ∈ Re.findall (pattern details) text true →
  PyStr.startswith "$" (PyStr.strip value) = true
  ∧ 1 ≤ PyStr.len (PyStr.strip value)
  ∧ (name ≠ "Earnings Per Share" → 2 ≤ PyStr.len (PyStr.strip value)).
Proof.
  intros Hin (a & b & _ & Hm)%scan_inv.
  destruct (metric_pattern_dollar _ _ Hin) as (r' & Hpat).
  assert (Hd : ∃ m', value = String "$" m').
  { rewrite Hpat in Hm. by apply match_at_dollar in Hm. }
  destruct Hd as (m' & Hv).
  split; [rewrite Hv; apply strip_starts_with_dollar|].
  split; [rewrite Hv; apply strip_starts_with_dollar|].
  intros Hne. rewrite (metric_pattern_amount _ _ Hin Hne) in Hm.
  apply match_at_amount in Hm as (d & m2 & -> & Hsp).
  unfold PyStr.strip. rewrite lstrip_cons_other by done.
  rewrite !rstrip_cons_other by done. rewrite !len_cons. lia.
Qed.

(** C4, as the code has it.  A sentence with an active organization adds,
    for each metric that has a keyword in the lowercased sentence and in the
    order of the metrics table, one candidate fact per match of the metric's
    pattern (found in the sentence as written) whose matched text, before
    trimming, is longer than 2 characters; the value of the fact is the
    trimmed match.  Every such candidate reaches the output.  The trimmed
    value starts with "$"; it has at least 2 characters under Revenue, Net
    Income and Operating Income, where "$5" is reached, and at least 1 under
    Earnings Per Share, whose pattern admits blanks, where the bare "$" is
    reached. *)
Theorem sentence_candidates (d : Doc) (pre post : list Sent) (sent : Sent)
    (org : string) :
  sents d = pre ++ sent :: post →
  truthy (final_org None (pre ++ [sent])) = Some org →
  candidate_facts d
  = link_loop None pre ++ sentence_facts org sent ++ link_loop (Some org) post
  ∧ sentence_facts org sent
    = flat_map
        (λ m, (λ value, {| Company := org; Metric := m.1;
                           Value := PyStr.strip value |})
              <$> filter (λ value, 2 < PyStr.len value)
                    (Re.findall (pattern m.2) (sent_text sent) true))
        (filter (λ m, keyword_hit m.2 sent = true) FINANCIAL_METRICS)
  ∧ (∀ f, f ∈ sentence_facts org sent ↔
          ∃ name details value,
            (name, details) ∈ FINANCIAL_METRICS
            ∧ existsb (λ keyword,
                         PyStr.contains keyword (PyStr.lower (sent_text sent)))
                (keywords details) = true
            ∧ value ∈ Re.findall (pattern details) (sent_text sent) true
            ∧ 2 < PyStr.len value
            ∧ f = {| Company := org; Metric := name;
                     Value := PyStr.strip value |})
  ∧ (∀ f, f ∈ sentence_facts org sent →
          ∃ out, _heuristic_contextual_linker (Some d) = Ok out ∧ f ∈ out)
  ∧ (∀ f, f ∈ sentence_facts org sent →
          PyStr.startswith "$" (Value f) = true
          ∧ 1 ≤ PyStr.len (Value f)
          ∧ (Metric f ≠ "Earnings Per Share" → 2 ≤ PyStr.len (Value f)))
  ∧ {| Company := org; Metric := "Revenue"; Value := "$5" |}
    ∈ sentence_facts org five_dollars
  ∧ {| Company := org; Metric := "Earnings Per Share"; Value := "$" |}
    ∈ sentence_facts org eps_bare.
Proof.
  intros Hd Ht. split; [|split; [|split; [|split; [|split; [|split]]]]].
  - unfold candidate_facts. rewrite Hd. by apply link_loop_at.
  - apply sentence_facts_by_metric.
  - intros f. rewrite elem_of_sentence_facts. split.
    + intros (name & details & Hin & Hf).
      apply elem_of_metric_facts in Hf as (Hhit & value & Hv & Hlen & ->).
      by exists name, details, value.
    + intros (name & details & value & Hin & Hhit & Hv & Hlen & ->).
      exists name, details. split; [done|].
      apply elem_of_metric_facts. split; [done|]. by exists value.
  - intros f Hf. eexists. split; [apply linker_drop_duplicates|].
    by eapply elem_of_candidates.
  - intros f (name & details & Hin & Hf)%elem_of_sentence_facts.
    apply elem_of_metric_facts in Hf as (_ & value & Hv & _ & ->).
    by apply (value_of_match name details (sent_text sent) value).
  - vm_compute. by left.
  - vm_compute. by left.
Qed.

(** The candidates of the Microsoft sentence, and the two shortest values. *)
Lemma sentence_candidates_witness :
  candidate_facts microsoft_doc = [fact "Microsoft" "Revenue" "$56.5 billion"]
  ∧ (∃ out, _heuristic_contextual_linker (Some microsoft_doc) = Ok out
            ∧ fact "Microsoft" "Revenue" "$56.5 billion" ∈ out)
  ∧ 2 ≤ PyStr.len "$56.5 billion"
  ∧ fact "Microsoft" "Earnings Per Share" "$" ∈ sentence_facts "Microsoft" eps_bare.
Proof.
  destruct (sentence_candidates microsoft_doc [] [it_also_grew]
              microsoft_sentence "Microsoft" eq_refl eq_refl)
    as (Hcand & _ & _ & Hout & Hval & _ & Hbare).
  split; [rewrite Hcand; by vm_compute|].
  split; [apply Hout; vm_compute; by left|].
  split; [|exact Hbare].
  destruct (Hval (fact "Microsoft" "Revenue" "$56.5 billion")) as (_ & _ & H2).
  - vm_compute. by left.
  - by apply H2.
Defined.

(** C5.  The active organization is carried through one pass over the
    sentences in document order.  A sentence with an ORG mention sets it: to
    the first mention that contains a name of the preferred list if there is
    one, else to the first mention.  A sentence without one leaves it as it
    was.  The facts of a sentence are drawn under the organization active
    there, which is their company, and the output holds exactly those facts.
    The sentences before the first ORG mention add nothing, and without any
    ORG mention the result is empty, whatever the sentences say. *)
Theorem active_organization_tracking :
  (∀ cur sent before k after,
     sent_orgs sent = before ++ k :: after →
     Forall (λ o, preferred o = false) before → preferred k = true →
     next_org cur sent = Some k)
  ∧ (∀ cur sent first rest,
       sent_orgs sent = first :: rest →
       Forall (λ o, preferred o = false) (first :: rest) →
       next_org cur sent = Some first)
  ∧ (∀ cur sent, no_org sent → next_org cur sent = cur)
  ∧ (∀ cur pre post,
       link_loop cur (pre ++ post)
       = link_loop cur pre ++ link_loop (fold_left next_org pre cur) post)
  ∧ (∀ pre post, Forall no_org pre →
       link_loop None (pre ++ post) = link_loop None post)
  ∧ (∀ d, Forall no_org (sents d) →
       _heuristic_contextual_linker (Some d) = Ok [])
  ∧ (∀ cur pre sent,
       final_org cur (pre ++ [sent]) = next_org (final_org cur pre) sent)
  ∧ (∀ pre sent post org,
       truthy (next_org (final_org None pre) sent) = Some org →
       link_loop None (pre ++ sent :: post)
       = link_loop None pre ++ sentence_facts org sent
         ++ link_loop (Some org) post)
  ∧ (∀ pre sent post,
       truthy (next_org (final_org None pre) sent) = None →
       link_loop None (pre ++ sent :: post)
       = link_loop None pre
         ++ link_loop (next_org (final_org None pre) sent) post)
  ∧ (∀ org sent f, f ∈ sentence_facts org sent → Company f = org)
  ∧ (∀ d out f,
       _heuristic_contextual_linker (Some d) = Ok out →
       (f ∈ out ↔
        ∃ pre sent post,
          sents d = pre ++ sent :: post
          ∧ truthy (next_org (final_org None pre) sent) = Some (Company f)
          ∧ f ∈ sentence_facts (Company f) sent)).
Proof.
  assert (Hstep : ∀ cur pre sent,
            final_org cur (pre ++ [sent]) = next_org (final_org cur pre) sent).
  { intros cur pre sent. by rewrite final_org_app. }
  assert (Hcompany : ∀ org sent f, f ∈ sentence_facts org sent → Company f = org).
  { intros org sent f (name & details & _ & Hf)%elem_of_sentence_facts.
    by apply elem_of_metric_facts in Hf as (_ & value & _ & _ & ->). }
  split; [|split; [|split; [|split; [|split; [|split; [|split;
    [|split; [|split; [|split]]]]]]]]].
  - intros cur sent before k after Horgs Hb Hk. unfold next_org.
    rewrite Horgs, filter_preferred_first by done.
    by destruct before.
  - intros cur sent first rest Horgs Hall. unfold next_org. rewrite Horgs.
    by rewrite (known_orgs_none _ Hall).
  - apply next_org_no_org.
  - apply link_loop_app.
  - intros pre post Hpre.
    by rewrite link_loop_app, link_loop_no_org, final_org_no_org.
  - intros d Hd. rewrite linker_drop_duplicates. unfold candidate_facts.
    by rewrite link_loop_no_org.
  - apply Hstep.
  - intros pre sent post org Ht. apply link_loop_at. by rewrite Hstep.
  - intros pre sent post Ht. rewrite link_loop_app. f_equal.
    cbn [link_loop]. by rewrite Ht.
  - apply Hcompany.
  - intros d out f. rewrite linker_drop_duplicates. intros [= <-].
    rewrite elem_of_drop_duplicates. unfold candidate_facts. split.
    + intros (pre & sent & post & org & Hd & Ht & Hf)%elem_of_link_loop.
      rewrite (Hcompany _ _ _ Hf). rewrite Hstep in Ht.
      by exists pre, sent, post.
    + intros (pre & sent & post & Hd & Ht & Hf).
      rewrite Hd, (link_loop_at _ _ _ (Company f)) by by rewrite Hstep.
      rewrite !elem_of_app. tauto.
Qed.

(** A preferred mention wins over an earlier minor one; without one the
    first mention is taken; a sentence without ORG keeps the state, and its
    figure goes to the organization it inherits. *)
Lemma active_organization_tracking_witness :
  next_org (Some "Contoso") minor_then_major = Some "Microsoft Azure"
  ∧ next_org (Some "Apple") minor_only = Some "Contoso"
  ∧ next_org (Some "Microsoft") it_also_grew = Some "Microsoft"
  ∧ link_loop None ([it_also_grew] ++ [microsoft_sentence])
    = link_loop None [microsoft_sentence]
  ∧ _heuristic_contextual_linker (Some anonymous) = Ok []
  ∧ link_loop None ([microsoft_sentence] ++ revenue_rose :: [contoso_sentence])
    = [fact "Microsoft" "Revenue" "$56.5 billion";
       fact "Microsoft" "Revenue" "$60 billion";
       fact "Contoso" "Revenue" "$2 million"]
  ∧ fact "Microsoft" "Revenue" "$60 billion"
    ∈ [fact "Microsoft" "Revenue" "$56.5 billion";
       fact "Microsoft" "Revenue" "$60 billion";
       fact "Contoso" "Revenue" "$2 million"].
Proof.
  destruct active_organization_tracking
    as (Hknown & Hfirst & Hkeep & _ & Hskip & Hnone & _ & Hat & _ & _ & Hout).
  split; [|split; [|split; [|split; [|split; [|split]]]]].
  - apply (Hknown _ minor_then_major ["Contoso"] "Microsoft Azure" ["Apple"]).
    + reflexivity.
    + by repeat constructor.
    + reflexivity.
  - apply (Hfirst _ minor_only "Contoso" ["Fabrikam"]).
    + reflexivity.
    + by repeat constructor.
  - apply Hkeep. reflexivity.
  - apply Hskip. by repeat constructor.
  - apply Hnone. by repeat constructor.
  - rewrite (Hat [microsoft_sentence] revenue_rose [contoso_sentence] "Microsoft")
      by reflexivity.
    by vm_compute.
  - apply (Hout three_sentences); [by vm_compute|].
    exists [microsoft_sentence], revenue_rose, [contoso_sentence].
    split; [reflexivity|]. split; [reflexivity|]. vm_compute. by left.
Defined.

(** C10, as the code has it.  In a sentence with an active organization,
    each metric that has a keyword in the sentence contributes one candidate
    per qualifying match of its own pattern, and all of them reach the
    output.  Two such metrics with the same pattern, which any two of
    Revenue, Net Income and Operating Income are, therefore both carry every
    qualifying figure: two facts with the same company and the same value
    that differ in the metric.  Earnings Per Share has a pattern of its own
    and carries the matches of that one. *)
Theorem one_figure_several_metrics (d : Doc) (pre post : list Sent)
    (sent : Sent) (org : string)
    (name1 name2 : string) (details1 details2 : MetricSpec) :
  sents d = pre ++ sent :: post →
  truthy (final_org None (pre ++ [sent])) = Some org →
  (name1, details1) ∈ FINANCIAL_METRICS →
  (name2, details2) ∈ FINANCIAL_METRICS →
  name1 ≠ name2 →
  keyword_hit details1 sent = true →
  keyword_hit details2 sent = true →
  let qualifying details :=
    filter (λ value, 2 < PyStr.len value)
      (Re.findall (pattern details) (sent_text sent) true) in
  let emitted name value :=
    {| Company := org; Metric := name; Value := PyStr.strip value |} in
  metric_facts org name1 details1 sent = emitted name1 <$> qualifying details1
  ∧ metric_facts org name2 details2 sent = emitted name2 <$> qualifying details2
  ∧ (name1 ≠ "Earnings Per Share" → name2 ≠ "Earnings Per Share" →
     pattern details1 = pattern details2)
  ∧ ∃ out,
      _heuristic_contextual_linker (Some d) = Ok out
      ∧ NoDup out
      ∧ (∀ value, value ∈ qualifying details1 → emitted name1 value ∈ out)
      ∧ (∀ value, value ∈ qualifying details2 → emitted name2 value ∈ out)
      ∧ (pattern details1 = pattern details2 →
         ∀ value, value ∈ qualifying details1 →
           emitted name1 value ∈ out ∧ emitted name2 value ∈ out
           ∧ emitted name1 value ≠ emitted name2 value
           ∧ Company (emitted name1 value) = Company (emitted name2 value)
           ∧ Value (emitted name1 value) = Value (emitted name2 value))
      ∧ (∀ f, f ∈ sentence_facts org sent → Metric f = name2 →
           ∃ value, value ∈ qualifying details2 ∧ Value f = PyStr.strip value).
Proof.
  intros Hd Ht Hin1 Hin2 Hne Hhit1 Hhit2 qualifying emitted.
  assert (Hm : ∀ name details, keyword_hit details sent = true →
            metric_facts org name details sent = emitted name <$> qualifying details).
  { intros name details Hhit. unfold metric_facts. by rewrite Hhit. }
  assert (Hout : ∀ name details value,
            (name, details) ∈ FINANCIAL_METRICS →
            keyword_hit details sent = true →
            value ∈ qualifying details →
            emitted name value ∈ Pandas.drop_duplicates (candidate_facts d)).
  { intros name details value Hin Hhit Hv.
    eapply elem_of_candidates; [done..|].
    apply elem_of_sentence_facts. exists name, details. split; [done|].
    rewrite Hm by done. apply list_elem_of_fmap. by exists value. }
  split; [by apply Hm|]. split; [by apply Hm|].
  split.
  { intros H1 H2. by rewrite (metric_pattern_amount _ _ Hin1 H1),
      (metric_pattern_amount _ _ Hin2 H2). }
  exists (Pandas.drop_duplicates (candidate_facts d)).
  split; [apply linker_drop_duplicates|]. split; [apply NoDup_drop_from|].
  split; [intros; by eapply Hout|]. split; [intros; by eapply Hout|].
  split.
  - intros Hpat value Hv.
    split; [by eapply Hout|]. split.
    + eapply Hout; [exact Hin2|done|]. unfold qualifying. by rewrite <- Hpat.
    + split; [|done]. unfold emitted. by intros [= ?].
  - intros f (name & details & Hin & Hf)%elem_of_sentence_facts Hmetric.
    apply elem_of_metric_facts in Hf as (_ & value & Hv & Hlen & ->).
    simpl in Hmetric. subst name.
    assert (details = details2) as ->.
    { unfold FINANCIAL_METRICS in Hin, Hin2.
      repeat (apply elem_of_cons in Hin as [[= Hn Hdet]|Hin];
              [repeat (apply elem_of_cons in Hin2 as [[= Hn2 Hdet2]|Hin2];
                       [congruence|]); by apply elem_of_nil in Hin2|]).
      by apply elem_of_nil in Hin. }
    exists value. split; [|done]. unfold qualifying.
    apply list_elem_of_filter. done.
Qed.

(** One figure under Revenue and under Net Income. *)
Lemma one_figure_several_metrics_witness :
  _heuristic_contextual_linker
    (Some {| sents := [two_metrics]; ents := sent_ents two_metrics |})
  = Ok [fact "Apple" "Revenue" "$5 billion"; fact "Apple" "Net Income" "$5 billion"]
  ∧ ∃ out,
      _heuristic_contextual_linker
        (Some {| sents := [two_metrics]; ents := sent_ents two_metrics |}) = Ok out
      ∧ fact "Apple" "Revenue" "$5 billion" ∈ out
      ∧ fact "Apple" "Net Income" "$5 billion" ∈ out.
Proof.
  split; [by vm_compute|].
  destruct (one_figure_several_metrics
              {| sents := [two_metrics]; ents := sent_ents two_metrics |}
              [] [] two_metrics "Apple"
              "Revenue" "Net Income"
              {| keywords := ["revenue"; "sales"]; pattern := amount_pattern |}
              {| keywords := ["net income"]; pattern := amount_pattern |})
    as (_ & _ & Hpat & out & Hout & _ & _ & _ & Hboth & _).
  - reflexivity.
  - reflexivity.
  - by left.
  - right. by left.
  - discriminate.
  - by vm_compute.
  - by vm_compute.
  - exists out. split; [exact Hout|].
    destruct (Hboth (Hpat ltac:(discriminate) ltac:(discriminate)) "$5 billion")
      as (H1 & H2 & _).
    + vm_compute. by left.
    + split; [exact H1|exact H2].
Defined.

(** C10, as stated, fails on a sentence with the keywords of Revenue and of
    Earnings Per Share: the figure "$3 billion", a qualifying match under
    Revenue, is not returned under Earnings Per Share, whose own pattern
    yields "$3" and "$ 1.25". *)
Lemma revenue_figure_is_not_under_eps :
  keyword_hit {| keywords := ["revenue"; "sales"]; pattern := amount_pattern |}
    revenue_and_eps = true
  ∧ keyword_hit
      {| keywords := ["earnings per share"; "diluted earnings per share"];
         pattern := eps_pattern |} revenue_and_eps = true
  ∧ "$3 billion"
    ∈ filter (λ value, 2 < PyStr.len value)
        (Re.findall amount_pattern (sent_text revenue_and_eps) true)
  ∧ _heuristic_contextual_linker
      (Some {| sents := [revenue_and_eps]; ents := sent_ents revenue_and_eps |})
    = Ok [fact "Apple" "Revenue" "$3 billion";
          fact "Apple" "Earnings Per Share" "$3";
          fact "Apple" "Earnings Per Share" "$ 1.25"]
  ∧ fact "Apple" "Earnings Per Share" "$3 billion"
    ∉ [fact "Apple" "Revenue" "$3 billion";
       fact "Apple" "Earnings Per Share" "$3";
       fact "Apple" "Earnings Per Share" "$ 1.25"].
Proof.
  split; [by vm_compute|]. split; [by vm_compute|].
  split; [vm_compute; by left|]. split; [by vm_compute|].
  intros Hin. repeat (apply elem_of_cons in Hin as [[=]|Hin]).
  by apply elem_of_nil in Hin.
Qed.
